(** * Luxe Couture API: catalog query, lookup, data source and checkout

    A shallow embedding of [main.py].  Python strings are modelled by their
    UTF-8 byte strings ([String.string]); on well-formed strings equality and
    the substring test [in] coincide with the ones on code points.  Python
    floats are binary64 values ([spec_float] with precision 53 and maximal
    exponent 1024).  Statements complete normally, by [return] or by raising
    an exception, and [try/except] is a combinator on completions. *)

From Stdlib Require Import Bool List String Ascii ZArith Lia.
From Stdlib Require Import Permutation Sorted.
From Stdlib Require Import Floats.SpecFloat.
Import ListNotations.

Local Open Scope string_scope.
Local Open Scope list_scope.

(** ** Python strings *)

Module PyStr.

(** [needle in hay] for two [str] values. *)
Fixpoint contains (needle hay : string) : bool :=
  if String.prefix needle hay then true
  else match hay with
       | EmptyString => false
       | String _ hay' => contains needle hay'
       end.

(** Truthiness of a [str]: only the empty string is falsy. *)
Definition truthy (s : string) : bool :=
  match s with EmptyString => false | String _ _ => true end.

Definition is_ascii_char (c : ascii) : bool :=
  (N_of_ascii c <? 128)%N.

Fixpoint is_ascii (s : string) : bool :=
  match s with
  | EmptyString => true
  | String c s' => is_ascii_char c && is_ascii s'
  end.

(** Lowercasing of the letters [A]..[Z]; every other byte is kept. *)
Definition ascii_lower_char (c : ascii) : ascii :=
  let n := N_of_ascii c in
  if ((65 <=? n) && (n <=? 90))%N then ascii_of_N (n + 32) else c.

Fixpoint ascii_lower (s : string) : string :=
  match s with
  | EmptyString => EmptyString
  | String c s' => String (ascii_lower_char c) (ascii_lower s')
  end.

(** [s] occurs in [t] as a contiguous block. *)
Definition occurs_in (s t : string) : Prop :=
  exists pre post, t = (pre ++ s ++ post)%string.

End PyStr.

(** ** Python floats (binary64) *)

Module PyFloat.

Definition float := spec_float.

Definition prec : Z := 53.
Definition emax : Z := 1024.

Definition lt : float -> float -> bool := SFltb.
Definition le : float -> float -> bool := SFleb.
Definition eq : float -> float -> bool := SFeqb.
Definition add : float -> float -> float := SFadd prec emax.
Definition mul : float -> float -> float := SFmul prec emax.

Definition is_nan (x : float) : bool :=
  match x with S754_nan => true | _ => false end.

Definition zero : float := S754_zero false.

(** The binary64 value of sign [s] nearest to [n / d] (ties to even), for
    [n > 0] and [d > 0]. *)
Definition nearest_ratio (s : bool) (n d : Z) : float :=
  let '(mz, ez, lz) := SFdiv_core_binary prec emax n 0 d 0 in
  binary_round_aux prec emax s mz ez lz.

(** The binary64 value nearest to [n / d], for [d > 0]: how a decimal
    literal is read and how a decimal string is converted to a float. *)
Definition of_ratio (n d : Z) : float :=
  match n with
  | Z0 => S754_zero false
  | _ => nearest_ratio (n <? 0)%Z (Z.abs n) d
  end.

(** [n / 10^k]: the float denoted by a decimal literal. *)
Definition of_decimal (n : Z) (k : nat) : float :=
  of_ratio n (10 ^ Z.of_nat k).

(** Conversion of a Python [int], as done for a mixed [float * int]:
    correctly rounded, and [OverflowError] ([None]) when the result is
    not finite. *)
Definition of_int (n : Z) : option float :=
  match binary_normalize prec emax n 0 false with
  | S754_infinity _ => None
  | f => Some f
  end.

(** Half-even rounding of [n / d] to an integer, for [d > 0]. *)
Definition round_half_even (n d : Z) : Z :=
  let q := (n / d)%Z in
  let r := (n mod d)%Z in
  match (2 * r ?= d)%Z with
  | Lt => q
  | Gt => (q + 1)%Z
  | Eq => if Z.even q then q else (q + 1)%Z
  end.

(** [round(x, 2)]: the exact value of [x] is rounded half-even to a
    multiple of 1/100 and the nearest float of that decimal is returned;
    zeros, infinities, NaN and integral values round to themselves. *)
Definition round2 (x : float) : float :=
  match x with
  | S754_finite s m e =>
      if (0 <=? e)%Z then x
      else
        let n := round_half_even (Zpos m * 100) (2 ^ (- e)) in
        if (n =? 0)%Z then S754_zero s else nearest_ratio s n 100
  | _ => x
  end.

(** [sum] over floats, starting from the integer 0: additions from left
    to right.  (From CPython 3.12 on [sum] also carries a compensation
    term; it leaves a sum of at most two floats as it is.) *)
Definition sum (l : list float) : float :=
  fold_left add l zero.

End PyFloat.

(** ** Completions of a block of statements *)

(** Exceptions, all of them instances of [Exception]. *)
Inductive exn : Type :=
| HTTPException (status_code : Z) (detail : string)
| Error (what : string).

Inductive completion (A : Type) : Type :=
| Normal : completion A
| Return : A -> completion A
| Raise : exn -> completion A.

Arguments Normal {A}.
Arguments Return {A} _.
Arguments Raise {A} _.

(** [try: body  except Exception: pass] *)
Definition try_except_pass {A : Type} (body : completion A) : completion A :=
  match body with
  | Raise _ => Normal
  | c => c
  end.

(** [first; second]: the second block runs when the first completes
    normally. *)
Definition seq {A : Type} (first second : completion A) : completion A :=
  match first with
  | Normal => second
  | c => c
  end.

(** [x = first; rest]: the rest runs on the value returned by a call. *)
Definition bind {A B : Type} (c : completion A) (k : A -> completion B)
    : completion B :=
  match c with
  | Return a => k a
  | Normal => Normal
  | Raise e => Raise e
  end.

(** ** Models *)

Record Product : Type := mkProduct {
  id : string;
  name : string;
  price : PyFloat.float;
  gender : string;
  category : string;
  sizes : list string;
  images : list string;
  description : option string;
  tags : list string;
  featured : bool;
  new_arrival : bool
}.

Module CartItem.
Record t : Type := mk {
  id : string;
  name : string;
  price : PyFloat.float;
  size : option string;
  quantity : Z;
  image : option string
}.
End CartItem.

Record CheckoutRequest : Type := mkCheckoutRequest {
  items : list CartItem.t;
  email : option string;
  shipping_address : option string
}.

(** ** Demo dataset *)

Definition f2490 : PyFloat.float := Eval vm_compute in PyFloat.of_decimal 24900 1.
Definition f980 : PyFloat.float := Eval vm_compute in PyFloat.of_decimal 9800 1.
Definition f3150 : PyFloat.float := Eval vm_compute in PyFloat.of_decimal 31500 1.
Definition f450 : PyFloat.float := Eval vm_compute in PyFloat.of_decimal 4500 1.
Definition f1290 : PyFloat.float := Eval vm_compute in PyFloat.of_decimal 12900 1.

Definition st_laurent_coat : Product := {|
  id := "st-laurent-coat";
  name := "Wool Cashmere Overcoat";
  price := f2490;
  gender := "men";
  category := "outerwear";
  sizes := ["S"; "M"; "L"; "XL"];
  images :=
    ["https://images.unsplash.com/photo-1516826957135-700dedea698c?q=80&w=1400&auto=format&fit=crop";
     "https://images.unsplash.com/photo-1490481651871-ab68de25d43d?q=80&w=1400&auto=format&fit=crop"];
  description := Some "Tailored Italian wool-cashmere blend with silk lining.";
  tags := ["coat"; "cashmere"; "luxury"];
  featured := true;
  new_arrival := false
|}.

Definition dior_heel_01 : Product := {|
  id := "dior-heel-01";
  name := "Patent Leather Stiletto";
  price := f980;
  gender := "women";
  category := "shoes";
  sizes := ["35"; "36"; "37"; "38"; "39"; "40"];
  images :=
    ["https://images.unsplash.com/photo-1520975922215-c0495a1fd8ec?q=80&w=1400&auto=format&fit=crop";
     "https://images.unsplash.com/photo-1561808843-7c3b1b4e6b8c?q=80&w=1400&auto=format&fit=crop"];
  description := Some "Glossy patent leather with gold accent heel.";
  tags := ["heels"; "gold"];
  featured := true;
  new_arrival := true
|}.

Definition gucci_bag_velvet : Product := {|
  id := "gucci-bag-velvet";
  name := "Velvet Chain Shoulder Bag";
  price := f3150;
  gender := "women";
  category := "bags";
  sizes := [];
  images :=
    ["https://images.unsplash.com/photo-1548036328-c9fa89d128fa?q=80&w=1400&auto=format&fit=crop";
     "https://images.unsplash.com/photo-1547949003-9792a18a2601?q=80&w=1400&auto=format&fit=crop"];
  description := Some "Signature velvet with brushed gold chain.";
  tags := ["bag"; "chain"; "velvet"];
  featured := false;
  new_arrival := true
|}.

Definition balenciaga_tee : Product := {|
  id := "balenciaga-tee";
  name := "Logo Cotton T-Shirt";
  price := f450;
  gender := "unisex";
  category := "tops";
  sizes := ["XS"; "S"; "M"; "L"; "XL"];
  images :=
    ["https://images.unsplash.com/photo-1544441893-675973e31985?q=80&w=1400&auto=format&fit=crop"];
  description := Some "Premium heavyweight cotton with subtle logo print.";
  tags := ["t-shirt"; "cotton"];
  featured := false;
  new_arrival := false
|}.

Definition ysl_boots_chelsea : Product := {|
  id := "ysl-boots-chelsea";
  name := "Leather Chelsea Boots";
  price := f1290;
  gender := "men";
  category := "shoes";
  sizes := ["40"; "41"; "42"; "43"; "44"];
  images :=
    ["https://images.unsplash.com/photo-1519741497674-611481863552?q=80&w=1400&auto=format&fit=crop"];
  description := Some "Polished calfskin with elastic side panels.";
  tags := ["boots"; "leather"];
  featured := true;
  new_arrival := false
|}.

Definition SAMPLE_PRODUCTS : list Product :=
  [st_laurent_coat; dior_heel_01; gucci_bag_velvet; balenciaga_tee;
   ysl_boots_chelsea].

(** ** [sorted(items, key=..., reverse=...)]

    Python's sort is stable and compares keys with [<] only.  Whenever [<]
    is a strict weak order on the keys present, every stable sort returns
    the same list, so the stable insertion sort below stands for it.
    [reverse=True] reverses the list, sorts it and reverses the outcome,
    which keeps elements with equal keys in their original order.

    With a NaN key [<] is no such order and the outcome of CPython depends
    on the runs it detects.  The two lists with a NaN price used below are
    returned unchanged by CPython, as they are by the insertion sort:
    [sorted([2.0, nan, 1.0])] is [[2.0, nan, 1.0]] and [sorted([nan, 1.0])]
    is [[nan, 1.0]], with and without [reverse=True]. *)

Section Sorting.
Context {A K : Type}.
Variable lt : K -> K -> bool.
Variable key : A -> K.

Fixpoint insert_by (x : A) (l : list A) : list A :=
  match l with
  | [] => [x]
  | y :: l' =>
      if lt (key y) (key x) then y :: insert_by x l' else x :: y :: l'
  end.

Fixpoint sort_by (l : list A) : list A :=
  match l with
  | [] => []
  | x :: l' => insert_by x (sort_by l')
  end.

Definition sorted (reverse : bool) (l : list A) : list A :=
  if reverse then rev (sort_by (rev l)) else sort_by l.

(** [x] may stand before [y] in an ascending list: [y < x] is false. *)
Definition not_after (x y : A) : Prop := lt (key y) (key x) = false.

(** [k] and the key of [x] are not ordered by [lt]. *)
Definition same_key (k : K) (x : A) : bool :=
  negb (lt k (key x)) && negb (lt (key x) k).

(** Number of elements passing a test. *)
Definition count (f : A -> bool) (l : list A) : nat :=
  List.length (filter f l).

(** Every key of [l] is in the set [good]. *)
Definition good_keys (good : K -> Prop) (l : list A) : Prop :=
  Forall (fun x => good (key x)) l.
End Sorting.

(** ** The catalog query of [list_products] *)

(** [if param:] for an optional string parameter: [None] and the empty
    string are falsy. *)
Definition if_given {A : Type} (param : option string)
    (pass : string -> A -> A) (x : A) : A :=
  match param with
  | Some s => if PyStr.truthy s then pass s x else x
  | None => x
  end.

(** [param == s] for an optional string parameter. *)
Definition param_is (param : option string) (s : string) : bool :=
  match param with
  | Some x => String.eqb x s
  | None => false
  end.

Section Catalog.
(** [str.lower] *)
Variable lower : string -> string.

Definition gender_test (gender_param : string) (p : Product) : bool :=
  String.eqb (lower (gender p)) (lower gender_param)
  || (String.eqb gender_param "unisex" && String.eqb (gender p) "unisex").

Definition category_test (category_param : string) (p : Product) : bool :=
  String.eqb (lower (category p)) (lower category_param).

Definition search_test (q : string) (p : Product) : bool :=
  let ql := lower q in
  PyStr.contains ql (lower (name p))
  || existsb (fun t => PyStr.contains ql (lower t)) (tags p).

Definition gender_pass (g : string) (items : list Product) :=
  filter (gender_test g) items.

Definition category_pass (c : string) (items : list Product) :=
  filter (category_test c) items.

Definition search_pass (q : string) (items : list Product) :=
  filter (search_test q) items.

Definition sort_pass (sort : option string) (items : list Product) :=
  let items :=
    if param_is sort "price_asc"
    then sorted PyFloat.lt price false items else items in
  let items :=
    if param_is sort "price_desc"
    then sorted PyFloat.lt price true items else items in
  items.

(** The body of [list_products] once [items] has been fetched. *)
Definition list_products_body (items : list Product)
    (gender category q sort : option string) : list Product :=
  let items := if_given gender gender_pass items in
  let items := if_given category category_pass items in
  let items := if_given q search_pass items in
  sort_pass sort items.

(** The plain case-insensitive equality filter on [gender]. *)
Definition plain_gender_test (gender_param : string) (p : Product) : bool :=
  String.eqb (lower (gender p)) (lower gender_param).

Definition plain_gender_pass (g : string) (items : list Product) :=
  filter (plain_gender_test g) items.
End Catalog.

(** ** [get_product] *)

Fixpoint get_product_loop (items : list Product) (product_id : string)
    : completion Product :=
  match items with
  | [] => Normal
  | p :: rest =>
      if String.eqb (id p) product_id then Return p
      else get_product_loop rest product_id
  end.

Definition get_product_body (items : list Product) (product_id : string)
    : completion Product :=
  seq (get_product_loop items product_id)
      (Raise (HTTPException 404 "Product not found")).

(** ** [fetch_products_from_db_or_sample] *)

(** Values stored in a document of the external store. *)
#[warnings="-register-all"] Inductive pyval : Type :=
| VNone
| VStr (s : string)
| VInt (n : Z)
| VFloat (x : PyFloat.float)
| VBool (b : bool)
| VObjectId (hex : string)
| VList (l : list pyval).

(** A document is a [dict] with string keys, in insertion order. *)
Definition doc : Type := list (string * pyval).

Fixpoint dict_get (d : doc) (k : string) (default : pyval) : pyval :=
  match d with
  | [] => default
  | (k', v) :: d' => if String.eqb k' k then v else dict_get d' k default
  end.

Fixpoint dict_set (d : doc) (k : string) (v : pyval) : doc :=
  match d with
  | [] => [(k, v)]
  | (k', v') :: d' =>
      if String.eqb k' k then (k, v) :: d' else (k', v') :: dict_set d' k v
  end.

(** What [from database import db, get_documents] gives: the import
    raises, or it binds [db] (possibly [None]) and [get_documents], whose
    call raises or returns documents. *)
Inductive database_import : Type :=
| ImportRaises (e : exn)
| Imported (db_is_not_none : bool)
           (get_documents : string -> exn + list doc).

Section Resolver.
(** The builtin [str]. *)
Variable str : pyval -> string.
(** The constructor [Product] applied to keyword arguments: the validated
    model, or the validation error. *)
Variable Product_init : doc -> exn + Product.

(** The body of the loop up to the [append]: [d["id"]] is set, then the
    model is built from every entry of [d] but ["_id"]. *)
Definition product_of_doc (d : doc) : exn + Product :=
  let d := dict_set d "id"
             (VStr (str (dict_get d "_id" (dict_get d "id" VNone)))) in
  Product_init (filter (fun kv => negb (String.eqb (fst kv) "_id")) d).

Fixpoint for_docs (docs : list doc) (products : list Product)
    : exn + list Product :=
  match docs with
  | [] => inr products
  | d :: docs' =>
      match product_of_doc d with
      | inl e => inl e
      | inr p => for_docs docs' (products ++ [p])
      end
  end.

Definition try_block (imp : database_import)
    : completion (list Product) :=
  match imp with
  | ImportRaises e => Raise e
  | Imported db_is_not_none get_documents =>
      if db_is_not_none then
        match get_documents "product" with
        | inl e => Raise e
        | inr docs =>
            match for_docs docs [] with
            | inl e => Raise e
            | inr [] => Normal
            | inr products => Return products
            end
        end
      else Normal
  end.

Definition fetch_products_from_db_or_sample (imp : database_import)
    : completion (list Product) :=
  seq (try_except_pass (try_block imp)) (Return SAMPLE_PRODUCTS).

(** The two routes on top of the resolver. *)
Definition list_products (lower : string -> string)
    (imp : database_import) (gender category q sort : option string)
    : completion (list Product) :=
  bind (fetch_products_from_db_or_sample imp)
       (fun items =>
          Return (list_products_body lower items gender category q sort)).

Definition get_product (imp : database_import) (product_id : string)
    : completion Product :=
  bind (fetch_products_from_db_or_sample imp)
       (fun items => get_product_body items product_id).
End Resolver.

(** ** [checkout] *)

Record checkout_response : Type := mkCheckoutResponse {
  ok : bool;
  total : PyFloat.float;
  message : string
}.

(** [it.price * it.quantity] *)
Definition line_total (it : CartItem.t) : exn + PyFloat.float :=
  match PyFloat.of_int (CartItem.quantity it) with
  | Some qf => inr (PyFloat.mul (CartItem.price it) qf)
  | None => inl (Error "OverflowError")
  end.

(** The generator [it.price * it.quantity for it in payload.items]. *)
Fixpoint line_totals (its : list CartItem.t) : exn + list PyFloat.float :=
  match its with
  | [] => inr []
  | it :: its' =>
      match line_total it with
      | inl e => inl e
      | inr x =>
          match line_totals its' with
          | inl e => inl e
          | inr xs => inr (x :: xs)
          end
      end
  end.

Definition checkout (payload : CheckoutRequest)
    : completion checkout_response :=
  match line_totals (items payload) with
  | inl e => Raise e
  | inr xs =>
      Return {| ok := true;
                total := PyFloat.round2 (PyFloat.sum xs);
                message := "Checkout initialized" |}
  end.

(** ** Vocabulary of the statements *)

(** Decidable equality on products, to count occurrences. *)
Definition float_eq_dec (x y : PyFloat.float) : {x = y} + {x <> y}.
Proof.
  unfold PyFloat.float. decide equality;
    try apply Bool.bool_dec; try apply Z.eq_dec; apply Pos.eq_dec.
Defined.

Definition Product_eq_dec (x y : Product) : {x = y} + {x <> y}.
Proof.
  decide equality;
    try apply Bool.bool_dec; try apply string_dec; try apply float_eq_dec;
    try (apply list_eq_dec; apply string_dec).
  decide equality. apply string_dec.
Defined.

(** A float that is a number. *)
Definition not_nan (x : PyFloat.float) : Prop := PyFloat.is_nan x = false.

(** No price is NaN: the prices are numbers, as the data model has them. *)
Definition no_nan_prices (items : list Product) : Prop :=
  Forall (fun p => not_nan (price p)) items.

(** A product with another price. *)
Definition with_price (p : Product) (x : PyFloat.float) : Product :=
  {| id := id p; name := name p; price := x; gender := gender p;
     category := category p; sizes := sizes p; images := images p;
     description := description p; tags := tags p; featured := featured p;
     new_arrival := new_arrival p |}.

(** Three products priced [2.0], [nan], [1.0], and two priced [nan],
    [1.0]. *)
Definition nan_triple : list Product :=
  [with_price st_laurent_coat (PyFloat.of_decimal 2 0);
   with_price dior_heel_01 S754_nan;
   with_price gucci_bag_velvet (PyFloat.of_decimal 1 0)].

Definition nan_pair : list Product :=
  [with_price dior_heel_01 S754_nan;
   with_price gucci_bag_velvet (PyFloat.of_decimal 1 0)].

(** No price is the zero of negative sign. *)
Definition no_negative_zero (items : list Product) : Prop :=
  Forall (fun p => price p <> S754_zero true) items.

(** Ascending and descending order of prices, with Python's [<=]. *)
Definition price_le (x y : Product) : Prop :=
  PyFloat.le (price x) (price y) = true.

Definition price_ge (x y : Product) : Prop :=
  PyFloat.le (price y) (price x) = true.

(** [a] stands somewhere before [b] in [l]. *)
Definition before (a b : Product) (l : list Product) : Prop :=
  exists l1 l2 l3, l = l1 ++ a :: l2 ++ b :: l3.

(** The test a parameter stands for: no constraint when it is falsy. *)
Definition test_of (param : option string) (test : string -> Product -> bool)
    (p : Product) : bool :=
  match param with
  | Some s => if PyStr.truthy s then test s p else true
  | None => true
  end.

(** The checkout request of the concrete scenario:
    [{price: 100, quantity: 2}, {price: 49.995, quantity: 1}]. *)
Definition scenario_items : list CartItem.t :=
  [ {| CartItem.id := "a"; CartItem.name := "a";
       CartItem.price := PyFloat.of_decimal 100 0;
       CartItem.size := None; CartItem.quantity := 2;
       CartItem.image := None |};
    {| CartItem.id := "b"; CartItem.name := "b";
       CartItem.price := PyFloat.of_decimal 49995 3;
       CartItem.size := None; CartItem.quantity := 1;
       CartItem.image := None |} ].

Definition scenario_request : CheckoutRequest :=
  {| items := scenario_items; email := None; shipping_address := None |}.


(** Products and parameters whose searched strings are pure ASCII. *)
Definition ascii_product (p : Product) : bool :=
  PyStr.is_ascii (name p) && PyStr.is_ascii (gender p)
  && PyStr.is_ascii (category p) && forallb PyStr.is_ascii (tags p).

Definition ascii_param (param : option string) : bool :=
  match param with
  | Some s => PyStr.is_ascii s
  | None => true
  end.

(** [str.lower] lowercases the letters [A]..[Z] of a pure ASCII string and
    keeps its other characters. *)
Definition lowers_ascii (lower : string -> string) : Prop :=
  forall s, PyStr.is_ascii s = true -> lower s = PyStr.ascii_lower s.

(** ** The other routes *)

(** [/featured] and [/new-arrivals]. *)
Module Route.
Section WithStore.
Variable str : pyval -> string.
Variable Product_init : doc -> exn + Product.

Definition featured (imp : database_import) : completion (list Product) :=
  bind (fetch_products_from_db_or_sample str Product_init imp)
       (fun items => Return (filter (fun p => featured p) items)).

Definition new_arrivals (imp : database_import)
    : completion (list Product) :=
  bind (fetch_products_from_db_or_sample str Product_init imp)
       (fun items => Return (filter (fun p => new_arrival p) items)).
End WithStore.
End Route.

(** The keyword arguments the loop of the resolver builds from a document:
    [product_of_doc] is [Product_init] applied to them. *)
Definition kwargs_of_doc (str : pyval -> string) (d : doc) : doc :=
  filter (fun kv => negb (String.eqb (fst kv) "_id"))
         (dict_set d "id"
            (VStr (str (dict_get d "_id" (dict_get d "id" VNone))))).

(** [k in d] *)
Definition dict_has (d : doc) (k : string) : bool :=
  existsb (fun kv => String.eqb (fst kv) k) d.

(** ** [test_database] *)

(** A byte that continues a UTF-8 code point. *)
Definition is_continuation (c : ascii) : bool :=
  ((128 <=? N_of_ascii c) && (N_of_ascii c <? 192))%N.

(** [s[:n]]: the first [n] code points of [s]. *)
Fixpoint py_take (n : nat) (s : string) : string :=
  match s with
  | EmptyString => EmptyString
  | String c s' =>
      if is_continuation c then String c (py_take n s')
      else match n with
           | O => EmptyString
           | S n' => String c (py_take n' s')
           end
  end.

(** [len(s)]: the number of code points of [s]. *)
Fixpoint py_len (s : string) : nat :=
  match s with
  | EmptyString => O
  | String c s' => if is_continuation c then py_len s' else S (py_len s')
  end.

(** The object [db] as [test_database] uses it: [getattr(db, 'name', ...)]
    raises, finds no attribute or gives its value, and
    [db.list_collection_names()] raises or gives the names. *)
Record db_handle : Type := mkDbHandle {
  getattr_name : exn + option pyval;
  list_collection_names : exn + list string
}.

(** What [from database import db] gives: the import raises, or it binds
    [db], possibly to [None]. *)
Inductive db_import : Type :=
| DbImportRaises (e : exn)
| DbImported (db : option db_handle).

Definition initial_response : doc :=
  [("backend", VStr "✅ Running");
   ("database", VStr "❌ Not Available");
   ("database_url", VNone);
   ("database_name", VNone);
   ("connection_status", VStr "Not Connected");
   ("collections", VList [])].

Section TestDatabase.
(** [str(e)] for an exception. *)
Variable str_exn : exn -> string.
(** [os.getenv] *)
Variable getenv : string -> option string.

(** The inner [try/except] around the listing of the collections. *)
Definition list_collections (db : db_handle) (response : doc) : doc :=
  match list_collection_names db with
  | inr names =>
      let response :=
        dict_set response "collections" (VList (map VStr (firstn 10 names)))
      in
      dict_set response "database" (VStr "✅ Connected & Working")
  | inl e =>
      dict_set response "database"
        (VStr ("⚠️  Connected but Error: " ++ py_take 50 (str_exn e))%string)
  end.

(** The outer [try/except]: the assignments made before an exception are
    kept. *)
Definition probe (imp : db_import) (response : doc) : doc :=
  match imp with
  | DbImportRaises e =>
      dict_set response "database"
        (VStr ("❌ Error: " ++ py_take 50 (str_exn e))%string)
  | DbImported None => response
  | DbImported (Some db) =>
      let response := dict_set response "database" (VStr "✅ Available") in
      let response :=
        dict_set response "database_url" (VStr "✅ Configured") in
      match getattr_name db with
      | inl e =>
          dict_set response "database"
            (VStr ("❌ Error: " ++ py_take 50 (str_exn e))%string)
      | inr attr =>
          let response :=
            dict_set response "database_name"
              (match attr with
               | Some v => v
               | None => VStr "✅ Connected"
               end) in
          let response :=
            dict_set response "connection_status" (VStr "Connected") in
          list_collections db response
      end
  end.

(** ["✅ Set" if os.getenv(name) else "❌ Not Set"] *)
Definition env_flag (name : string) : pyval :=
  VStr (match getenv name with
        | Some v => if PyStr.truthy v then "✅ Set" else "❌ Not Set"
        | None => "❌ Not Set"
        end).

Definition test_database (imp : db_import) : doc :=
  let response := probe imp initial_response in
  let response :=
    dict_set response "database_url" (env_flag "DATABASE_URL") in
  let response :=
    dict_set response "database_name" (env_flag "DATABASE_NAME") in
  response.
End TestDatabase.

(** ** Vocabulary of the further statements *)

(** The price and the quantity of a cart item. *)
Definition priced (it : CartItem.t) : PyFloat.float * Z :=
  (CartItem.price it, CartItem.quantity it).

(** A float that is zero or finite. *)
Definition is_finite (x : PyFloat.float) : bool :=
  match x with
  | S754_zero _ | S754_finite _ _ _ => true
  | _ => false
  end.

(** The conjunction of the three filter tests of a query. *)
Definition query_test (lower : string -> string) (g c q : option string)
    (p : Product) : bool :=
  test_of g (gender_test lower) p
  && test_of c (category_test lower) p
  && test_of q (search_test lower) p.

(** A sample store for the examples: one valid document and a constructor
    that accepts a document with a name. *)
Definition sample_doc : doc :=
  [("_id", VObjectId "65f0c0ffee"); ("name", VStr "Silk Scarf");
   ("id", VStr "old-id")].

(** * Facts about the model *)

(** ** Order of floats *)

Module PyFloatFacts.
Import PyFloat.

Ltac cmp_cases :=
  repeat match goal with
    | H : context [Pos.compare_cont Eq ?a ?b] |- _ =>
        change (Pos.compare_cont Eq a b) with (Pos.compare a b) in H
    | |- context [Pos.compare_cont Eq ?a ?b] =>
        change (Pos.compare_cont Eq a b) with (Pos.compare a b)
    | H : context [Z.compare ?a ?b] |- _ =>
        destruct (Z.compare_spec a b); simpl in H
    | H : context [Pos.compare ?a ?b] |- _ =>
        destruct (Pos.compare_spec a b); simpl in H
    | |- context [Z.compare ?a ?b] =>
        destruct (Z.compare_spec a b); simpl
    | |- context [Pos.compare ?a ?b] =>
        destruct (Pos.compare_spec a b); simpl
    end;
  try reflexivity; try discriminate; try lia.

Lemma lt_irrefl (a : float) : lt a a = false.
Proof.
  unfold lt, SFltb.
  destruct a as [s|s| |s m e]; try destruct s; simpl; cmp_cases.
Qed.

Lemma lt_asym (a b : float) : lt a b = true -> lt b a = false.
Proof.
  unfold lt, SFltb.
  destruct a as [s|s| |s m e], b as [t|t| |t n f];
    try destruct s; try destruct t; simpl; intros H; cmp_cases.
Qed.

Lemma le_trans (a b c : float) :
  is_nan a = false -> is_nan b = false -> is_nan c = false ->
  lt b a = false -> lt c b = false -> lt c a = false.
Proof.
  unfold lt, SFltb.
  destruct a as [s|s| |s m e], b as [t|t| |t n f], c as [u|u| |u k g];
    try destruct s; try destruct t; try destruct u; simpl;
    intros Ha Hb Hc H1 H2; try discriminate; try reflexivity; cmp_cases.
Qed.

Lemma eq_incomparable (a b : float) :
  is_nan a = false -> is_nan b = false ->
  eq a b = negb (lt a b) && negb (lt b a).
Proof.
  unfold eq, lt, SFeqb, SFltb.
  destruct a as [s|s| |s m e], b as [t|t| |t n f];
    try destruct s; try destruct t; simpl; intros Ha Hb;
    try discriminate; try reflexivity; cmp_cases.
Qed.

Lemma le_not_lt (a b : float) :
  is_nan a = false -> is_nan b = false ->
  le a b = negb (lt b a).
Proof.
  unfold le, lt, SFleb, SFltb.
  destruct a as [s|s| |s m e], b as [t|t| |t n f];
    try destruct s; try destruct t; simpl; intros Ha Hb;
    try discriminate; try reflexivity; cmp_cases.
Qed.

Lemma round_half_even_nearest (n d : Z) :
  (0 < d)%Z -> (2 * Z.abs (n - round_half_even n d * d) <= d)%Z.
Proof.
  intros Hd. unfold round_half_even.
  pose proof (Z.div_mod n d) as Hdm.
  pose proof (Z.mod_pos_bound n d Hd) as Hr.
  destruct (Z.compare_spec (2 * (n mod d)) d); try destruct (Z.even (n / d));
    nia.
Qed.

(** The decimal chosen by [round(x, 2)] is within half a hundredth of the
    exact value of [x]. *)
Lemma round2_finite (s : bool) (m : positive) (e : Z) :
  (e < 0)%Z ->
  exists n,
    (2 * Z.abs (Zpos m * 100 - n * 2 ^ (- e)) <= 2 ^ (- e))%Z
    /\ round2 (S754_finite s m e)
       = if (n =? 0)%Z then S754_zero s else nearest_ratio s n 100.
Proof.
  intros He. exists (round_half_even (Zpos m * 100) (2 ^ (- e))). split.
  - apply round_half_even_nearest. apply Z.pow_pos_nonneg; lia.
  - unfold round2. destruct (Z.leb_spec 0 e); [lia|reflexivity].
Qed.

Lemma eq_not_nan (a b : float) :
  eq a b = true -> is_nan a = false /\ is_nan b = false.
Proof.
  destruct a as [s|s| |s m e], b as [t|t| |t n f]; simpl; intros H;
    try discriminate; split; reflexivity.
Qed.

Lemma eq_leibniz (a b : float) :
  eq a b = true -> a <> S754_zero true -> b <> S754_zero true -> a = b.
Proof.
  unfold eq, SFeqb.
  destruct a as [s|s| |s m e], b as [t|t| |t n f];
    try destruct s; try destruct t; simpl; intros H Ha Hb;
    try discriminate; try reflexivity; try congruence.
  - destruct (Z.compare_spec e f); try discriminate. subst f.
    change (Pos.compare_cont Eq m n) with (Pos.compare m n) in H.
    destruct (Pos.compare_spec m n); try discriminate. subst n. reflexivity.
  - destruct (Z.compare_spec e f); try discriminate. subst f.
    change (Pos.compare_cont Eq m n) with (Pos.compare m n) in H.
    destruct (Pos.compare_spec m n); try discriminate. subst n. reflexivity.
Qed.

Lemma eq_refl_r (a b : float) : eq a b = true -> eq b b = true.
Proof.
  intros H. apply eq_not_nan in H. destruct H as [_ Hb].
  rewrite eq_incomparable by assumption. rewrite lt_irrefl. reflexivity.
Qed.

Lemma eq_eq_not_lt (a b v : float) :
  eq a v = true -> eq b v = true -> lt a b = false.
Proof.
  intros Ha Hb.
  destruct (eq_not_nan _ _ Ha) as [Na Nv].
  destruct (eq_not_nan _ _ Hb) as [Nb _].
  rewrite eq_incomparable in Ha, Hb by assumption.
  rewrite andb_true_iff, !negb_true_iff in Ha, Hb.
  destruct Ha as [Ha1 Ha2], Hb as [Hb1 Hb2].
  apply le_trans with (b := v); assumption.
Qed.
End PyFloatFacts.

(** ** Substring test *)

Module PyStrFacts.
Import PyStr.

Lemma prefix_iff (s1 s2 : string) :
  String.prefix s1 s2 = true <-> exists post, s2 = (s1 ++ post)%string.
Proof.
  revert s2. induction s1 as [|a s1 IH]; intros s2; simpl.
  - destruct s2; split; intros _; try reflexivity; eexists; reflexivity.
  - destruct s2 as [|b s2].
    + split; [discriminate|]. intros [post H]. discriminate.
    + simpl. destruct (ascii_dec a b) as [->|Hab].
      * split.
        -- intros H. apply IH in H. destruct H as [post H].
           exists post. rewrite H. reflexivity.
        -- intros [post H]. injection H as H. apply IH.
           exists post. exact H.
      * split; [discriminate|]. intros [post H]. injection H as H1 H2.
        congruence.
Qed.

Lemma contains_unfold (needle hay : string) :
  contains needle hay =
  if String.prefix needle hay then true
  else match hay with
       | EmptyString => false
       | String _ hay' => contains needle hay'
       end.
Proof. destruct hay; reflexivity. Qed.

Lemma contains_iff (needle hay : string) :
  contains needle hay = true <-> occurs_in needle hay.
Proof.
  unfold occurs_in. induction hay as [|c hay IH];
    rewrite contains_unfold;
    destruct (String.prefix needle _) eqn:E.
  - split; [|reflexivity]. intros _.
    apply prefix_iff in E. destruct E as [post E].
    exists "", post. exact E.
  - split; [discriminate|]. intros [pre [post H]].
    destruct pre; [|discriminate]. simpl in H.
    assert (String.prefix needle "" = true) as E'
        by (apply prefix_iff; exists post; exact H).
    congruence.
  - split; [|reflexivity]. intros _.
    apply prefix_iff in E. destruct E as [post E].
    exists "", post. exact E.
  - split.
    + intros H. apply IH in H. destruct H as [pre [post H]].
      exists (String c pre), post. rewrite H. reflexivity.
    + intros [pre [post H]]. destruct pre as [|c' pre].
      * simpl in H.
        assert (String.prefix needle (String c hay) = true) as E'
            by (apply prefix_iff; exists post; exact H).
        congruence.
      * injection H as _ H. apply IH. exists pre, post. exact H.
Qed.

Lemma contains_empty (hay : string) : contains "" hay = true.
Proof. destruct hay; reflexivity. Qed.

Lemma truthy_iff (s : string) : truthy s = true <-> s <> "".
Proof. destruct s; simpl; split; congruence. Qed.
End PyStrFacts.

(** ** Stable sorting *)

Section SortingFacts.
Context {A K : Type}.
Variable lt : K -> K -> bool.
Variable key : A -> K.

Lemma insert_by_perm (x : A) (l : list A) :
  Permutation (insert_by lt key x l) (x :: l).
Proof.
  induction l as [|y l IH]; simpl.
  - apply Permutation_refl.
  - destruct (lt (key y) (key x)).
    + apply perm_trans with (y :: x :: l).
      * apply perm_skip, IH.
      * apply perm_swap.
    + apply Permutation_refl.
Qed.

Lemma sort_by_perm (l : list A) : Permutation (sort_by lt key l) l.
Proof.
  induction l as [|x l IH]; simpl.
  - apply perm_nil.
  - apply perm_trans with (x :: sort_by lt key l).
    + apply insert_by_perm.
    + apply perm_skip, IH.
Qed.

Lemma sorted_perm (reverse : bool) (l : list A) :
  Permutation (sorted lt key reverse l) l.
Proof.
  unfold sorted. destruct reverse.
  - apply perm_trans with (sort_by lt key (rev l)).
    + apply Permutation_sym, Permutation_rev.
    + apply perm_trans with (rev l).
      * apply sort_by_perm.
      * apply Permutation_sym, Permutation_rev.
  - apply sort_by_perm.
Qed.

(** *** Stability needs no assumption on [lt] beyond the test selecting
    elements that [lt] does not order. *)

Lemma filter_insert_by (f : A -> bool) (x : A) (l : list A) :
  (forall y, In y l -> f x = true -> f y = true ->
             lt (key y) (key x) = false) ->
  filter f (insert_by lt key x l) = filter f (x :: l).
Proof.
  induction l as [|y l IH]; intros Hxy; simpl.
  - reflexivity.
  - destruct (lt (key y) (key x)) eqn:Hlt.
    + simpl.
      rewrite IH by (intros z Hz; apply Hxy; right; exact Hz).
      simpl. pose proof (Hxy y (or_introl Logic.eq_refl)) as Hy.
      destruct (f x), (f y); try reflexivity.
      rewrite Hy in Hlt by reflexivity. discriminate.
    + reflexivity.
Qed.

Lemma filter_sort_by (f : A -> bool) (l : list A) :
  (forall x y, In x l -> In y l -> f x = true -> f y = true ->
               lt (key x) (key y) = false) ->
  filter f (sort_by lt key l) = filter f l.
Proof.
  induction l as [|x l IH]; intros Hf; simpl.
  - reflexivity.
  - rewrite filter_insert_by.
    + simpl. rewrite IH; [reflexivity|].
      intros a b Ha Hb. apply Hf; right; assumption.
    + intros y Hy Hfx Hfy. apply Hf; try assumption.
      * right. apply (Permutation_in _ (sort_by_perm l)). exact Hy.
      * left. reflexivity.
Qed.

Lemma filter_sorted (f : A -> bool) (reverse : bool) (l : list A) :
  (forall x y, In x l -> In y l -> f x = true -> f y = true ->
               lt (key x) (key y) = false) ->
  filter f (sorted lt key reverse l) = filter f l.
Proof.
  intros Hf. unfold sorted. destruct reverse.
  - rewrite filter_rev, filter_sort_by, filter_rev, rev_involutive.
    + reflexivity.
    + intros x y Hx Hy. apply Hf; apply in_rev; assumption.
  - apply filter_sort_by. exact Hf.
Qed.

(** *** Order: [lt] is a strict weak order on the keys satisfying [good]. *)

Variable good : K -> Prop.
Hypothesis key_lt_asym :
  forall a b, good a -> good b -> lt a b = true -> lt b a = false.
Hypothesis key_le_trans :
  forall a b c, good a -> good b -> good c ->
                lt b a = false -> lt c b = false -> lt c a = false.

Lemma key_lt_irrefl (a : K) : good a -> lt a a = false.
Proof.
  intros Ha. destruct (lt a a) eqn:E; [|reflexivity].
  rewrite (key_lt_asym a a Ha Ha E) in E. discriminate.
Qed.

Lemma insert_by_sorted (x : A) (l : list A) :
  good (key x) -> good_keys key good l ->
  StronglySorted (not_after lt key) l ->
  StronglySorted (not_after lt key) (insert_by lt key x l).
Proof.
  intros Hx Hl Hs. induction Hs as [|y l Hs IH Hy]; simpl.
  - constructor; constructor.
  - inversion Hl as [|? ? Hgy Hgl]; subst.
    destruct (lt (key y) (key x)) eqn:Hlt.
    + constructor.
      * apply IH. exact Hgl.
      * apply Forall_forall. intros z Hz.
        apply (Permutation_in _ (insert_by_perm x l)) in Hz.
        destruct Hz as [<-|Hz].
        -- unfold not_after. apply key_lt_asym; assumption.
        -- rewrite Forall_forall in Hy. apply Hy. exact Hz.
    + constructor.
      * constructor; assumption.
      * constructor.
        -- exact Hlt.
        -- rewrite Forall_forall in Hy, Hgl |- *. intros z Hz.
           unfold not_after.
           apply key_le_trans with (b := key y); auto.
           apply Hy. exact Hz.
Qed.

Lemma good_keys_perm (l l' : list A) :
  Permutation l l' -> good_keys key good l -> good_keys key good l'.
Proof.
  intros Hp Hl. unfold good_keys in *. rewrite Forall_forall in *.
  intros x Hx. apply Hl. apply (Permutation_in _ (Permutation_sym Hp)).
  exact Hx.
Qed.

Lemma sort_by_sorted (l : list A) :
  good_keys key good l -> StronglySorted (not_after lt key) (sort_by lt key l).
Proof.
  induction l as [|x l IH]; intros Hl; simpl.
  - constructor.
  - inversion Hl; subst. apply insert_by_sorted.
    + assumption.
    + apply good_keys_perm with l; [|assumption].
      apply Permutation_sym, sort_by_perm.
    + apply IH. assumption.
Qed.

Lemma StronglySorted_snoc (R : A -> A -> Prop) (l : list A) (x : A) :
  StronglySorted R l -> Forall (fun z => R z x) l ->
  StronglySorted R (l ++ [x]).
Proof.
  intros Hs. induction Hs as [|y l Hs IH Hy]; intros Hx; simpl.
  - constructor; constructor.
  - inversion Hx; subst. constructor.
    + apply IH. assumption.
    + apply Forall_app. split; [assumption|]. constructor; [assumption|constructor].
Qed.

Lemma StronglySorted_rev (R : A -> A -> Prop) (l : list A) :
  StronglySorted R l -> StronglySorted (fun x y => R y x) (rev l).
Proof.
  intros Hs. induction Hs as [|y l Hs IH Hy]; simpl.
  - constructor.
  - apply StronglySorted_snoc.
    + exact IH.
    + apply Forall_rev. exact Hy.
Qed.

Lemma sorted_ascending (l : list A) :
  good_keys key good l -> StronglySorted (not_after lt key) (sorted lt key false l).
Proof. apply sort_by_sorted. Qed.

Lemma sorted_descending (l : list A) :
  good_keys key good l ->
  StronglySorted (fun x y => not_after lt key y x) (sorted lt key true l).
Proof.
  intros Hl. unfold sorted. apply StronglySorted_rev, sort_by_sorted.
  apply good_keys_perm with l; [apply Permutation_rev | exact Hl].
Qed.

(** *** Two ascending arrangements of the same elements carry the same
    keys position by position, up to [lt]-incomparability. *)

Lemma count_perm (f : A -> bool) (l l' : list A) :
  Permutation l l' -> count f l = count f l'.
Proof.
  intros Hp. unfold count.
  induction Hp as [|x l l' Hp IH|x y l|l l' l'' Hp1 IH1 Hp2 IH2]; simpl.
  - reflexivity.
  - destruct (f x); simpl; congruence.
  - destruct (f x), (f y); reflexivity.
  - congruence.
Qed.

Lemma count_pos_witness (f : A -> bool) (l : list A) :
  0 < count f l -> exists z, In z l /\ f z = true.
Proof.
  unfold count. destruct (filter f l) as [|z t] eqn:E; simpl; [lia|].
  intros _. exists z. apply filter_In. rewrite E. left. reflexivity.
Qed.

Lemma same_key_trans (k : K) (x y : A) :
  good k -> good (key x) -> good (key y) ->
  same_key lt key (key x) y = true -> same_key lt key k x = same_key lt key k y.
Proof.
  intros Hk Hx Hy. unfold same_key.
  rewrite andb_true_iff, !negb_true_iff. intros [Hxy Hyx].
  assert (E1 : lt k (key x) = lt k (key y)).
  { destruct (lt k (key x)) eqn:E, (lt k (key y)) eqn:E'; try reflexivity.
    - rewrite (key_le_trans _ _ _ Hx Hy Hk Hyx E') in E. discriminate.
    - rewrite (key_le_trans _ _ _ Hy Hx Hk Hxy E) in E'. discriminate. }
  assert (E2 : lt (key x) k = lt (key y) k).
  { destruct (lt (key x) k) eqn:E, (lt (key y) k) eqn:E'; try reflexivity.
    - rewrite (key_le_trans _ _ _ Hk Hy Hx E' Hxy) in E. discriminate.
    - rewrite (key_le_trans _ _ _ Hk Hx Hy E Hyx) in E'. discriminate. }
  rewrite E1, E2. reflexivity.
Qed.

Lemma head_same_key (a b : A) (l1 l2 : list A) :
  good_keys key good (a :: l1) -> good_keys key good (b :: l2) ->
  StronglySorted (not_after lt key) (b :: l2) ->
  0 < count (same_key lt key (key a)) (b :: l2) ->
  lt (key a) (key b) = false.
Proof.
  intros H1 H2 Hs Hc.
  inversion H1 as [|? ? Ha _]; subst.
  inversion H2 as [|? ? Hb Hl2]; subst.
  destruct (count_pos_witness _ _ Hc) as [z [Hz Hsame]].
  unfold same_key in Hsame.
  rewrite andb_true_iff, !negb_true_iff in Hsame. destruct Hsame as [Haz Hza].
  destruct Hz as [<-|Hz]; [exact Haz|].
  inversion Hs as [|? ? _ Hbz]; subst.
  rewrite Forall_forall in Hbz, Hl2.
  apply key_le_trans with (b := key z); auto.
  apply Hbz. exact Hz.
Qed.

Lemma sorted_same_keys (l1 l2 : list A) :
  good_keys key good l1 -> good_keys key good l2 ->
  StronglySorted (not_after lt key) l1 -> StronglySorted (not_after lt key) l2 ->
  (forall k, good k -> count (same_key lt key k) l1 = count (same_key lt key k) l2) ->
  Forall2 (fun x y => same_key lt key (key x) y = true) l1 l2.
Proof.
  revert l2. induction l1 as [|a l1 IH]; intros l2 H1 H2 S1 S2 Hc.
  - destruct l2 as [|b l2]; [constructor|].
    inversion H2 as [|? ? Hb _]; subst.
    specialize (Hc (key b) Hb). unfold count in Hc. simpl in Hc.
    unfold same_key in Hc at 1. rewrite (key_lt_irrefl _ Hb) in Hc.
    simpl in Hc. discriminate.
  - inversion H1 as [|? ? Ha Hl1]; subst.
    destruct l2 as [|b l2].
    + specialize (Hc (key a) Ha). unfold count in Hc. simpl in Hc.
      unfold same_key in Hc at 1. rewrite (key_lt_irrefl _ Ha) in Hc.
      simpl in Hc. discriminate.
    + inversion H2 as [|? ? Hb Hl2]; subst.
      assert (Hab : same_key lt key (key a) b = true).
      { unfold same_key. rewrite andb_true_iff, !negb_true_iff. split.
        - apply (head_same_key a b l1 l2); auto.
          rewrite <- Hc by exact Ha. unfold count. simpl.
          unfold same_key at 1. rewrite (key_lt_irrefl _ Ha). simpl. lia.
        - apply (head_same_key b a l2 l1); auto.
          rewrite Hc by exact Hb. unfold count. simpl.
          unfold same_key at 1. rewrite (key_lt_irrefl _ Hb). simpl. lia. }
      constructor; [exact Hab|].
      inversion S1; subst. inversion S2; subst.
      apply IH; auto.
      intros k Hk. specialize (Hc k Hk). unfold count in *. simpl in Hc.
      rewrite (same_key_trans k a b Hk Ha Hb Hab) in Hc.
      destruct (same_key lt key k b); simpl in Hc; lia.
Qed.

Lemma Forall2_rev_both {B : Type} (R : A -> B -> Prop) (l1 : list A)
    (l2 : list B) :
  Forall2 R l1 l2 -> Forall2 R (rev l1) (rev l2).
Proof.
  intros H. induction H as [|x y l1 l2 Hxy H IH]; simpl.
  - constructor.
  - apply Forall2_app; [exact IH|]. constructor; [exact Hxy|constructor].
Qed.

Lemma sorted_reverse_keys (l : list A) :
  good_keys key good l ->
  Forall2 (fun x y => same_key lt key (key x) y = true)
          (sorted lt key true l) (rev (sorted lt key false l)).
Proof.
  intros Hl. unfold sorted.
  apply Forall2_rev_both.
  assert (Hr : good_keys key good (rev l)).
  { apply good_keys_perm with l; [apply Permutation_rev | exact Hl]. }
  apply sorted_same_keys.
  - apply good_keys_perm with (rev l); [|exact Hr].
    apply Permutation_sym, sort_by_perm.
  - apply good_keys_perm with l; [|exact Hl].
    apply Permutation_sym, sort_by_perm.
  - apply sort_by_sorted. exact Hr.
  - apply sort_by_sorted. exact Hl.
  - intros k _. apply count_perm.
    apply perm_trans with (rev l); [apply sort_by_perm|].
    apply perm_trans with l.
    + apply Permutation_sym, Permutation_rev.
    + apply Permutation_sym, sort_by_perm.
Qed.
End SortingFacts.

(** ** Lists *)

Section ListFacts.
Context {A : Type}.

Lemma filter_true (l : list A) : filter (fun _ => true) l = l.
Proof. induction l as [|x l IH]; simpl; congruence. Qed.

Lemma filter_both (f g : A -> bool) (l : list A) :
  filter f (filter g l) = filter (fun x => g x && f x) l.
Proof.
  induction l as [|x l IH]; simpl; [reflexivity|].
  destruct (g x); simpl; [destruct (f x)|]; congruence.
Qed.

Lemma filter_swap (f g : A -> bool) (l : list A) :
  filter f (filter g l) = filter g (filter f l).
Proof.
  rewrite !filter_both. apply filter_ext. intros x. apply andb_comm.
Qed.

Lemma filter_app_inv (f : A -> bool) (r u t : list A) :
  filter f r = u ++ t ->
  exists r1 r2, r = r1 ++ r2 /\ filter f r1 = u /\ filter f r2 = t.
Proof.
  revert u. induction r as [|x r IH]; intros u H; simpl in H.
  - symmetry in H. apply app_eq_nil in H. destruct H as [-> ->].
    exists [], []. repeat split.
  - destruct (f x) eqn:Hx.
    + destruct u as [|y u]; simpl in H.
      * exists [], (x :: r). simpl. rewrite Hx. repeat split. exact H.
      * injection H as Hxy H. subst y.
        destruct (IH u H) as [r1 [r2 [-> [H1 H2]]]].
        exists (x :: r1), r2. simpl. rewrite Hx, H1. repeat split. exact H2.
    + destruct (IH u H) as [r1 [r2 [-> [H1 H2]]]].
      exists (x :: r1), r2. simpl. rewrite Hx. repeat split; assumption.
Qed.

Lemma filter_cons_inv (f : A -> bool) (r : list A) (a : A) (t : list A) :
  filter f r = a :: t ->
  exists r1 r2, r = r1 ++ a :: r2 /\ filter f r2 = t.
Proof.
  induction r as [|x r IH]; intros H; simpl in H; [discriminate|].
  destruct (f x) eqn:Hx.
  - injection H as Hxa H. subst a. exists [], r.
    split; [reflexivity|exact H].
  - destruct (IH H) as [r1 [r2 [-> H2]]].
    exists (x :: r1), r2. split; [reflexivity|exact H2].
Qed.

Lemma StronglySorted_impl_in (R R' : A -> A -> Prop) (l : list A) :
  (forall x y, In x l -> In y l -> R x y -> R' x y) ->
  StronglySorted R l -> StronglySorted R' l.
Proof.
  intros HR Hs. induction Hs as [|x l Hs IH Hx].
  - constructor.
  - constructor.
    + apply IH. intros a b Ha Hb. apply HR; right; assumption.
    + rewrite Forall_forall in *. intros y Hy.
      apply HR; [left; reflexivity | right; exact Hy | apply Hx; exact Hy].
Qed.

Lemma Forall2_impl_in {B : Type} (R R' : A -> B -> Prop) (l1 : list A)
    (l2 : list B) :
  (forall x y, In x l1 -> In y l2 -> R x y -> R' x y) ->
  Forall2 R l1 l2 -> Forall2 R' l1 l2.
Proof.
  intros HR H. induction H as [|x y l1 l2 Hxy H IH].
  - constructor.
  - constructor.
    + apply HR; [left; reflexivity | left; reflexivity | exact Hxy].
    + apply IH. intros a b Ha Hb. apply HR; right; assumption.
Qed.

Lemma Forall2_map_both {B : Type} (f : A -> B) (R : B -> B -> Prop)
    (l1 l2 : list A) :
  Forall2 (fun x y => R (f x) (f y)) l1 l2 ->
  Forall2 R (map f l1) (map f l2).
Proof.
  intros H. induction H; simpl; constructor; assumption.
Qed.

Lemma existsb_ext_in (f g : A -> bool) (l : list A) :
  (forall x, In x l -> f x = g x) -> existsb f l = existsb g l.
Proof.
  induction l as [|x l IH]; intros H; simpl; [reflexivity|].
  rewrite (H x (or_introl Logic.eq_refl)), IH; [reflexivity|].
  intros y Hy. apply H. right. exact Hy.
Qed.

Lemma count_occ_filter_le (dec : forall x y : A, {x = y} + {x <> y})
    (f : A -> bool) (l : list A) (a : A) :
  count_occ dec (filter f l) a <= count_occ dec l a.
Proof.
  induction l as [|x l IH]; simpl; [lia|].
  destruct (f x); simpl; destruct (dec x a); lia.
Qed.
End ListFacts.

(** ** The filter passes *)

Section CatalogFacts.
Variable lower : string -> string.

Lemma if_given_filter (param : option string)
    (test : string -> Product -> bool) (items : list Product) :
  if_given param (fun s => filter (test s)) items
  = filter (test_of param test) items.
Proof.
  unfold if_given, test_of. destruct param as [s|].
  - destruct (PyStr.truthy s).
    + reflexivity.
    + symmetry. apply filter_true.
  - symmetry. apply filter_true.
Qed.

Lemma gender_pass_filter (param : option string) (items : list Product) :
  if_given param (gender_pass lower) items
  = filter (test_of param (gender_test lower)) items.
Proof. apply (if_given_filter param (gender_test lower)). Qed.

Lemma category_pass_filter (param : option string) (items : list Product) :
  if_given param (category_pass lower) items
  = filter (test_of param (category_test lower)) items.
Proof. apply (if_given_filter param (category_test lower)). Qed.

Lemma search_pass_filter (param : option string) (items : list Product) :
  if_given param (search_pass lower) items
  = filter (test_of param (search_test lower)) items.
Proof. apply (if_given_filter param (search_test lower)). Qed.

Lemma sort_pass_perm (sort : option string) (items : list Product) :
  Permutation (sort_pass sort items) items.
Proof.
  unfold sort_pass.
  destruct (param_is sort "price_asc"), (param_is sort "price_desc").
  - eapply perm_trans; apply sorted_perm.
  - apply sorted_perm.
  - apply sorted_perm.
  - apply Permutation_refl.
Qed.

Lemma list_products_body_filters (items : list Product)
    (g c q s : option string) :
  list_products_body lower items g c q s
  = sort_pass s
      (filter (test_of q (search_test lower))
         (filter (test_of c (category_test lower))
            (filter (test_of g (gender_test lower)) items))).
Proof.
  unfold list_products_body.
  rewrite gender_pass_filter, category_pass_filter, search_pass_filter.
  reflexivity.
Qed.

Lemma gender_test_plain (g : string) (p : Product) :
  gender_test lower g p = plain_gender_test lower g p.
Proof.
  unfold gender_test, plain_gender_test.
  destruct (String.eqb (lower (gender p)) (lower g)) eqn:E; [reflexivity|].
  simpl.
  destruct (String.eqb_spec g "unisex") as [->|]; [|reflexivity].
  destruct (String.eqb_spec (gender p) "unisex") as [Hp|]; [|reflexivity].
  rewrite Hp, String.eqb_refl in E. discriminate.
Qed.

Lemma search_test_iff (q : string) (p : Product) :
  search_test lower q p = true <->
  PyStr.occurs_in (lower q) (lower (name p))
  \/ exists t, In t (tags p) /\ PyStr.occurs_in (lower q) (lower t).
Proof.
  unfold search_test. rewrite orb_true_iff, existsb_exists.
  rewrite PyStrFacts.contains_iff.
  split; intros [H|[t [Ht H]]]; try (left; exact H); right; exists t;
    (split; [exact Ht|]); apply PyStrFacts.contains_iff; exact H.
Qed.

End CatalogFacts.

(** *** On pure ASCII data [lower] may be computed *)

Section AsciiData.
Variable lower : string -> string.
Hypothesis lower_ascii : lowers_ascii lower.

Lemma test_of_ascii (param : option string)
    (test test' : string -> Product -> bool) (p : Product) :
  (forall s, param = Some s -> test s p = test' s p) ->
  test_of param test p = test_of param test' p.
Proof.
  intros H. unfold test_of. destruct param as [s|]; [|reflexivity].
  destruct (PyStr.truthy s); [|reflexivity]. apply H. reflexivity.
Qed.

Lemma list_products_body_ascii (items : list Product)
    (g c q s : option string) :
  forallb ascii_product items = true ->
  ascii_param g = true -> ascii_param c = true ->
  ascii_param q = true ->
  list_products_body lower items g c q s
  = list_products_body PyStr.ascii_lower items g c q s.
Proof.
  intros Hitems Hg Hc Hq. rewrite !list_products_body_filters.
  rewrite forallb_forall in Hitems.
  assert (Hp : forall p, In p items ->
             PyStr.is_ascii (name p) = true /\
             PyStr.is_ascii (gender p) = true /\
             PyStr.is_ascii (category p) = true /\
             forall t, In t (tags p) -> PyStr.is_ascii t = true).
  { intros p Hin. specialize (Hitems p Hin). unfold ascii_product in Hitems.
    rewrite !andb_true_iff, forallb_forall in Hitems. tauto. }
  f_equal.
  assert (Eg : filter (test_of g (gender_test lower)) items
               = filter (test_of g (gender_test PyStr.ascii_lower))
                   items).
  { apply filter_ext_in. intros p Hin. apply test_of_ascii.
    intros s' ->. unfold gender_test. simpl in Hg.
    destruct (Hp p Hin) as [_ [Hgp _]].
    rewrite (lower_ascii _ Hgp), (lower_ascii _ Hg). reflexivity. }
  rewrite Eg.
  set (l1 := filter (test_of g (gender_test PyStr.ascii_lower)) items).
  assert (H1 : forall p, In p l1 -> In p items).
  { intros p Hin. apply filter_In in Hin. tauto. }
  assert (Ec : filter (test_of c (category_test lower)) l1
               = filter (test_of c (category_test PyStr.ascii_lower))
                   l1).
  { apply filter_ext_in. intros p Hin. apply test_of_ascii.
    intros s' ->. unfold category_test. simpl in Hc.
    destruct (Hp p (H1 p Hin)) as [_ [_ [Hcp _]]].
    rewrite (lower_ascii _ Hcp), (lower_ascii _ Hc). reflexivity. }
  rewrite Ec.
  set (l2 := filter (test_of c (category_test PyStr.ascii_lower)) l1).
  assert (H2 : forall p, In p l2 -> In p items).
  { intros p Hin. apply filter_In in Hin. apply H1. tauto. }
  apply filter_ext_in. intros p Hin. apply test_of_ascii.
  intros s' ->. unfold search_test. simpl in Hq.
  destruct (Hp p (H2 p Hin)) as [Hn [_ [_ Ht]]].
  rewrite (lower_ascii _ Hn), (lower_ascii _ Hq). f_equal.
  apply existsb_ext_in. intros t Hin'.
  rewrite (lower_ascii _ (Ht t Hin')). reflexivity.
Qed.
End AsciiData.

(** ** Sorting by price *)

Lemma no_nan_good_keys (items : list Product) :
  no_nan_prices items -> good_keys price not_nan items.
Proof. intros H. exact H. Qed.

Lemma price_sorted_ascending (items : list Product) :
  no_nan_prices items ->
  StronglySorted price_le (sorted PyFloat.lt price false items).
Proof.
  intros Hn.
  apply StronglySorted_impl_in with (R := not_after PyFloat.lt price).
  - intros x y Hx Hy H. unfold no_nan_prices in Hn.
    rewrite Forall_forall in Hn.
    apply (Permutation_in _ (sorted_perm PyFloat.lt price false items)) in Hx.
    apply (Permutation_in _ (sorted_perm PyFloat.lt price false items)) in Hy.
    unfold price_le. rewrite PyFloatFacts.le_not_lt by (apply Hn; assumption).
    unfold not_after in H. rewrite H. reflexivity.
  - apply sorted_ascending with (good := not_nan).
    + intros a b _ _. apply PyFloatFacts.lt_asym.
    + intros a b c. apply PyFloatFacts.le_trans.
    + apply no_nan_good_keys. exact Hn.
Qed.

Lemma price_sorted_descending (items : list Product) :
  no_nan_prices items ->
  StronglySorted price_ge (sorted PyFloat.lt price true items).
Proof.
  intros Hn.
  apply StronglySorted_impl_in
    with (R := fun x y => not_after PyFloat.lt price y x).
  - intros x y Hx Hy H. unfold no_nan_prices in Hn.
    rewrite Forall_forall in Hn.
    apply (Permutation_in _ (sorted_perm PyFloat.lt price true items)) in Hx.
    apply (Permutation_in _ (sorted_perm PyFloat.lt price true items)) in Hy.
    unfold price_ge. rewrite PyFloatFacts.le_not_lt by (apply Hn; assumption).
    unfold not_after in H. rewrite H. reflexivity.
  - apply sorted_descending with (good := not_nan).
    + intros a b _ _. apply PyFloatFacts.lt_asym.
    + intros a b c. apply PyFloatFacts.le_trans.
    + apply no_nan_good_keys. exact Hn.
Qed.

Lemma sort_pass_stable (s : option string) (v : PyFloat.float)
    (items : list Product) :
  filter (fun p => PyFloat.eq (price p) v) (sort_pass s items)
  = filter (fun p => PyFloat.eq (price p) v) items.
Proof.
  assert (H : forall r l,
             filter (fun p => PyFloat.eq (price p) v)
                    (sorted PyFloat.lt price r l)
             = filter (fun p => PyFloat.eq (price p) v) l).
  { intros r l. apply filter_sorted. intros x y _ _ Hx Hy.
    apply PyFloatFacts.eq_eq_not_lt with (v := v); assumption. }
  unfold sort_pass.
  destruct (param_is s "price_asc"), (param_is s "price_desc");
    rewrite ?H; reflexivity.
Qed.

Lemma sort_pass_keeps_before (s : option string) (a b : Product)
    (items : list Product) :
  PyFloat.eq (price a) (price b) = true ->
  before a b items -> before a b (sort_pass s items).
Proof.
  intros Hab [l1 [l2 [l3 E]]].
  pose proof (sort_pass_stable s (price b) items) as Hst.
  set (f := fun p => PyFloat.eq (price p) (price b)) in *.
  assert (Hb : f b = true) by (apply (PyFloatFacts.eq_refl_r _ _ Hab)).
  rewrite E in Hst at 2.
  rewrite filter_app in Hst. simpl in Hst. fold f in Hst.
  change (f a) with (PyFloat.eq (price a) (price b)) in Hst.
  rewrite Hab, filter_app in Hst. simpl in Hst. rewrite Hb in Hst.
  destruct (filter_app_inv _ _ _ _ Hst) as [r1 [r2 [E1 [_ H2]]]].
  destruct (filter_cons_inv _ _ _ _ H2) as [s1 [s2 [E2 H3]]].
  destruct (filter_app_inv _ _ _ _ H3) as [t1 [t2 [E3 [_ H4]]]].
  destruct (filter_cons_inv _ _ _ _ H4) as [q1 [q2 [E4 _]]].
  exists (r1 ++ s1), (t1 ++ q1), q2.
  rewrite E1, E2, E3, E4, <- !app_assoc. reflexivity.
Qed.

Lemma price_reverse (items : list Product) :
  no_nan_prices items ->
  Forall2 (fun x y => PyFloat.eq x y = true)
          (map price (sorted PyFloat.lt price true items))
          (rev (map price (sorted PyFloat.lt price false items))).
Proof.
  intros Hn. rewrite <- map_rev. apply Forall2_map_both.
  apply Forall2_impl_in
    with (R := fun x y => same_key PyFloat.lt price (price x) y = true).
  - intros x y Hx Hy H. unfold no_nan_prices in Hn.
    rewrite Forall_forall in Hn.
    apply (Permutation_in _ (sorted_perm PyFloat.lt price true items)) in Hx.
    apply in_rev in Hy.
    apply (Permutation_in _ (sorted_perm PyFloat.lt price false items)) in Hy.
    rewrite PyFloatFacts.eq_incomparable by (apply Hn; assumption).
    exact H.
  - apply sorted_reverse_keys with (good := not_nan).
    + intros a b _ _. apply PyFloatFacts.lt_asym.
    + intros a b c. apply PyFloatFacts.le_trans.
    + apply no_nan_good_keys. exact Hn.
Qed.

(** ** Lookup by id *)

Lemma get_product_loop_return (items : list Product) (product_id : string)
    (p : Product) :
  get_product_loop items product_id = Return p <->
  exists l1 l2,
    items = l1 ++ p :: l2 /\ id p = product_id
    /\ forall x, In x l1 -> id x <> product_id.
Proof.
  induction items as [|y items IH]; simpl.
  - split; [discriminate|]. intros [l1 [l2 [H _]]].
    destruct l1; discriminate.
  - destruct (String.eqb_spec (id y) product_id) as [Hy|Hy].
    + split.
      * intros H. injection H as <-. exists [], items.
        repeat split; [exact Hy|]. intros x [].
      * intros [l1 [l2 [E [Hp Hl1]]]]. destruct l1 as [|z l1].
        -- injection E as <- _. reflexivity.
        -- injection E as <- _. exfalso.
           apply (Hl1 y); [left; reflexivity | exact Hy].
    + rewrite IH. split.
      * intros [l1 [l2 [E [Hp Hl1]]]]. exists (y :: l1), l2.
        rewrite E. repeat split; [exact Hp|].
        intros x [<-|Hx]; [exact Hy | apply Hl1; exact Hx].
      * intros [l1 [l2 [E [Hp Hl1]]]]. destruct l1 as [|z l1].
        -- injection E as <- _. contradiction.
        -- injection E as <- E. exists l1, l2. repeat split; try assumption.
           intros x Hx. apply Hl1. right. exact Hx.
Qed.

Lemma get_product_loop_normal (items : list Product) (product_id : string) :
  get_product_loop items product_id = Normal <->
  forall x, In x items -> id x <> product_id.
Proof.
  induction items as [|y items IH]; simpl.
  - split; [intros _ x []|reflexivity].
  - destruct (String.eqb_spec (id y) product_id) as [Hy|Hy].
    + split; [discriminate|]. intros H. exfalso.
      apply (H y); [left; reflexivity | exact Hy].
    + rewrite IH. split.
      * intros H x [<-|Hx]; [exact Hy | apply H; exact Hx].
      * intros H x Hx. apply H. right. exact Hx.
Qed.

Lemma get_product_loop_no_raise (items : list Product) (product_id : string)
    (e : exn) :
  get_product_loop items product_id <> Raise e.
Proof.
  induction items as [|y items IH]; simpl; [discriminate|].
  destruct (String.eqb (id y) product_id); [discriminate|exact IH].
Qed.

(** C6.  The lookup returns the first product of the list whose id is the
    requested one, compared exactly; it raises the 404 error if and only if
    no product has that id, and these are its only outcomes; a product whose
    id is the only match is returned as it is. *)
Theorem get_product_first_match_or_404 (items : list Product)
    (product_id : string) :
  (forall p,
      get_product_body items product_id = Return p <->
      exists l1 l2,
        items = l1 ++ p :: l2 /\ id p = product_id
        /\ forall x, In x l1 -> id x <> product_id)
  /\ (get_product_body items product_id
      = Raise (HTTPException 404 "Product not found") <->
      forall x, In x items -> id x <> product_id)
  /\ ((exists p, get_product_body items product_id = Return p)
      \/ get_product_body items product_id
         = Raise (HTTPException 404 "Product not found"))
  /\ (forall l1 p l2,
        items = l1 ++ p :: l2 -> id p = product_id ->
        (forall x, In x (l1 ++ l2) -> id x <> product_id) ->
        get_product_body items product_id = Return p).
Proof.
  unfold get_product_body, seq.
  split; [|split; [|split]].
  - intros p. rewrite <- get_product_loop_return.
    destruct (get_product_loop items product_id); split; intros H;
      try discriminate; exact H.
  - rewrite <- get_product_loop_normal.
    pose proof (get_product_loop_no_raise items product_id) as Hr.
    destruct (get_product_loop items product_id) as [|p|e]; split; intros H;
      try discriminate; try reflexivity.
    exfalso. apply (Hr e). reflexivity.
  - pose proof (get_product_loop_no_raise items product_id) as Hr.
    destruct (get_product_loop items product_id) as [|p|e].
    + right. reflexivity.
    + left. exists p. reflexivity.
    + exfalso. apply (Hr e). reflexivity.
  - intros l1 p l2 E Hp Hl.
    assert (H : get_product_loop items product_id = Return p).
    { apply get_product_loop_return. exists l1, l2.
      repeat split; try assumption.
      intros x Hx. apply Hl. apply in_or_app. left. exact Hx. }
    rewrite H. reflexivity.
Qed.

Lemma get_product_first_match_or_404_witness :
  get_product_body SAMPLE_PRODUCTS "dior-heel-01" = Return dior_heel_01.
Proof.
  apply (proj2 (proj2 (proj2
           (get_product_first_match_or_404 SAMPLE_PRODUCTS "dior-heel-01")))
           [st_laurent_coat] dior_heel_01
           [gucci_bag_velvet; balenciaga_tee; ysl_boots_chelsea]).
  - reflexivity.
  - reflexivity.
  - intros x H. simpl in H.
    repeat (destruct H as [<-|H]; [discriminate|]). destruct H.
Defined.

(** ** The data source *)

Section ResolverFacts.
Variable str : pyval -> string.
Variable Product_init : doc -> exn + Product.

Lemma for_docs_ok (docs : list doc) (acc qs : list Product) :
  Forall2 (fun d p => product_of_doc str Product_init d = inr p) docs qs ->
  for_docs str Product_init docs acc = inr (acc ++ qs).
Proof.
  intros H. revert acc. induction H as [|d p docs qs Hd H IH]; intros acc.
  - simpl. rewrite app_nil_r. reflexivity.
  - simpl. rewrite Hd, IH, <- app_assoc. reflexivity.
Qed.

Lemma for_docs_raises (docs : list doc) (acc : list Product) :
  (exists d e, In d docs /\ product_of_doc str Product_init d = inl e) ->
  exists e, for_docs str Product_init docs acc = inl e.
Proof.
  revert acc. induction docs as [|d docs IH]; intros acc [d' [e [Hin He]]].
  - destruct Hin.
  - simpl. destruct (product_of_doc str Product_init d) as [e'|p] eqn:Hd.
    + exists e'. reflexivity.
    + destruct Hin as [<-|Hin]; [congruence|].
      apply IH. exists d', e. split; assumption.
Qed.

Lemma for_docs_inv (docs : list doc) (acc ps : list Product) :
  for_docs str Product_init docs acc = inr ps ->
  exists qs,
    ps = acc ++ qs
    /\ Forall2 (fun d p => product_of_doc str Product_init d = inr p)
               docs qs.
Proof.
  revert acc. induction docs as [|d docs IH]; intros acc H; simpl in H.
  - injection H as <-. exists []. rewrite app_nil_r. split; constructor.
  - destruct (product_of_doc str Product_init d) as [e|p] eqn:Hd;
      [discriminate|].
    destruct (IH _ H) as [qs [-> HF]]. exists (p :: qs).
    rewrite <- app_assoc. split; [reflexivity|].
    constructor; assumption.
Qed.

Lemma fetch_returns (imp : database_import) :
  exists products,
    fetch_products_from_db_or_sample str Product_init imp = Return products.
Proof.
  unfold fetch_products_from_db_or_sample, try_except_pass, seq, try_block.
  destruct imp as [e|[|] get_documents].
  - eexists. reflexivity.
  - destruct (get_documents "product") as [e|docs].
    + eexists. reflexivity.
    + destruct (for_docs str Product_init docs []) as [e|[|p ps]];
        eexists; reflexivity.
  - eexists. reflexivity.
Qed.

(** The two routes run the resolver first, which always returns. *)
Lemma list_products_runs (lower : string -> string) (imp : database_import)
    (g c q s : option string) :
  exists items,
    fetch_products_from_db_or_sample str Product_init imp = Return items
    /\ list_products str Product_init lower imp g c q s
       = Return (list_products_body lower items g c q s).
Proof.
  unfold list_products, bind.
  destruct (fetch_returns imp) as [items ->].
  exists items. split; reflexivity.
Qed.

Lemma get_product_runs (imp : database_import) (product_id : string) :
  exists items,
    fetch_products_from_db_or_sample str Product_init imp = Return items
    /\ get_product str Product_init imp product_id
       = get_product_body items product_id.
Proof.
  unfold get_product, bind.
  destruct (fetch_returns imp) as [items ->].
  exists items. split; reflexivity.
Qed.

(** C8.  The resolver always returns a list and never raises.  It returns
    the sample dataset when the import of the store fails, when the store
    is not configured, when the read raises, when building a product from
    a document raises, and when the store holds no document; in the
    remaining case it returns the products built from the documents, in
    their order. *)
Theorem resolver_falls_back_to_sample :
  (forall imp,
      exists products,
        fetch_products_from_db_or_sample str Product_init imp
        = Return products)
  /\ (forall e,
        fetch_products_from_db_or_sample str Product_init (ImportRaises e)
        = Return SAMPLE_PRODUCTS)
  /\ (forall get_documents,
        fetch_products_from_db_or_sample str Product_init
          (Imported false get_documents)
        = Return SAMPLE_PRODUCTS)
  /\ (forall get_documents e,
        get_documents "product" = inl e ->
        fetch_products_from_db_or_sample str Product_init
          (Imported true get_documents)
        = Return SAMPLE_PRODUCTS)
  /\ (forall get_documents docs,
        get_documents "product" = inr docs ->
        (exists d e,
            In d docs /\ product_of_doc str Product_init d = inl e) ->
        fetch_products_from_db_or_sample str Product_init
          (Imported true get_documents)
        = Return SAMPLE_PRODUCTS)
  /\ (forall get_documents,
        get_documents "product" = inr [] ->
        fetch_products_from_db_or_sample str Product_init
          (Imported true get_documents)
        = Return SAMPLE_PRODUCTS)
  /\ (forall get_documents docs products,
        get_documents "product" = inr docs -> docs <> [] ->
        Forall2 (fun d p => product_of_doc str Product_init d = inr p)
                docs products ->
        fetch_products_from_db_or_sample str Product_init
          (Imported true get_documents)
        = Return products).
Proof.
  split; [apply fetch_returns|].
  unfold fetch_products_from_db_or_sample, try_except_pass, seq, try_block.
  repeat split.
  - intros get_documents e ->. reflexivity.
  - intros get_documents docs -> Hbad.
    destruct (for_docs_raises docs [] Hbad) as [e ->]. reflexivity.
  - intros get_documents ->. reflexivity.
  - intros get_documents docs products -> Hne HF.
    rewrite (for_docs_ok docs [] products HF). simpl.
    destruct HF; [congruence|reflexivity].
Qed.
End ResolverFacts.

Lemma resolver_falls_back_to_sample_witness :
  fetch_products_from_db_or_sample
    (fun _ => "65f0c0ffee")
    (fun _ => inl (Error "ValidationError"))
    (Imported true
       (fun _ => inr [[("_id", VObjectId "65f0c0ffee"); ("name", VStr "x")]]))
  = Return SAMPLE_PRODUCTS.
Proof.
  apply (proj1 (proj2 (proj2 (proj2 (proj2
           (resolver_falls_back_to_sample
              (fun _ => "65f0c0ffee")
              (fun _ => inl (Error "ValidationError")))))))
           (fun _ => inr [[("_id", VObjectId "65f0c0ffee");
                           ("name", VStr "x")]])
           [[("_id", VObjectId "65f0c0ffee"); ("name", VStr "x")]]).
  - reflexivity.
  - eexists. eexists. split; [left; reflexivity|reflexivity].
Defined.

(** ** Checkout *)

Lemma line_totals_ok (its : list CartItem.t) :
  (forall it, In it its -> PyFloat.of_int (CartItem.quantity it) <> None) ->
  exists xs,
    line_totals its = inr xs
    /\ Forall2 (fun it x =>
                  exists qf,
                    PyFloat.of_int (CartItem.quantity it) = Some qf
                    /\ x = PyFloat.mul (CartItem.price it) qf)
               its xs.
Proof.
  induction its as [|it its IH]; intros H.
  - exists []. split; constructor.
  - destruct IH as [xs [E HF]].
    { intros it' Hin. apply H. right. exact Hin. }
    simpl. unfold line_total.
    destruct (PyFloat.of_int (CartItem.quantity it)) as [qf|] eqn:Hq.
    + rewrite E. eexists. split; [reflexivity|].
      constructor; [|exact HF]. exists qf. split; [exact Hq|reflexivity].
    + exfalso. apply (H it); [left; reflexivity | exact Hq].
Qed.





(** * The catalog query *)

(** C1.  Whatever the parameters, every product of the query result is a
    product of the input list, and it occurs in the result at most as often
    as in the input. *)
Theorem list_products_from_input (lower : string -> string)
    (items : list Product) (g c q s : option string) :
  (forall p, In p (list_products_body lower items g c q s) -> In p items)
  /\ (forall p,
        count_occ Product_eq_dec (list_products_body lower items g c q s) p
        <= count_occ Product_eq_dec items p).
Proof.
  rewrite list_products_body_filters. split; intros p.
  - intros H. apply (Permutation_in _ (sort_pass_perm s _)) in H.
    repeat (apply filter_In in H; destruct H as [H _]). exact H.
  - rewrite (proj1 (Permutation_count_occ Product_eq_dec _ _)
               (sort_pass_perm s _) p).
    repeat (etransitivity; [apply count_occ_filter_le|]). reflexivity.
Qed.

Lemma list_products_from_input_witness :
  In dior_heel_01
     (list_products_body PyStr.ascii_lower SAMPLE_PRODUCTS
        (Some "women") None None (Some "price_desc"))
  /\ In dior_heel_01 SAMPLE_PRODUCTS.
Proof.
  assert (H : In dior_heel_01
                 (list_products_body PyStr.ascii_lower SAMPLE_PRODUCTS
                    (Some "women") None None (Some "price_desc")))
    by (vm_compute; right; left; reflexivity).
  split; [exact H|].
  exact (proj1 (list_products_from_input PyStr.ascii_lower SAMPLE_PRODUCTS
                  (Some "women") None None (Some "price_desc"))
               dior_heel_01 H).
Defined.


(** C2.  The gender filter of the code and the plain case-insensitive
    equality filter return the same list for every product list and every
    value of the parameter; asking for "men" never returns a product whose
    gender is "unisex" ([str.lower] being the lowercasing of ASCII letters
    on ASCII strings). *)
Theorem gender_filter_is_plain_equality (lower : string -> string)
    (items : list Product) :
  (forall g, gender_pass lower g items = plain_gender_pass lower g items)
  /\ (forall param,
        if_given param (gender_pass lower) items
        = if_given param (plain_gender_pass lower) items)
  /\ (lowers_ascii lower ->
      forall c q s p,
        In p (list_products_body lower items (Some "men") c q s) ->
        gender p <> "unisex").
Proof.
  assert (E : forall g,
             gender_pass lower g items = plain_gender_pass lower g items).
  { intros g. apply filter_ext. intros p. apply gender_test_plain. }
  split; [exact E|]. split.
  - intros [g|]; simpl; [|reflexivity].
    destruct (PyStr.truthy g); [apply E|reflexivity].
  - intros lower_ascii c q s p H Hp. rewrite list_products_body_filters in H.
    apply (Permutation_in _ (sort_pass_perm s _)) in H.
    do 2 (apply filter_In in H; destruct H as [H _]).
    apply filter_In in H. destruct H as [_ H].
    simpl in H. rewrite gender_test_plain in H.
    unfold plain_gender_test in H. rewrite Hp in H.
    rewrite !lower_ascii in H by reflexivity. discriminate.
Qed.

Lemma gender_filter_is_plain_equality_witness :
  lowers_ascii PyStr.ascii_lower
  /\ In ysl_boots_chelsea
       (list_products_body PyStr.ascii_lower SAMPLE_PRODUCTS
          (Some "men") (Some "shoes") None None)
  /\ gender ysl_boots_chelsea <> "unisex".
Proof.
  assert (H : lowers_ascii PyStr.ascii_lower) by (intros s _; reflexivity).
  assert (Hin : In ysl_boots_chelsea
                   (list_products_body PyStr.ascii_lower SAMPLE_PRODUCTS
                      (Some "men") (Some "shoes") None None))
    by (vm_compute; left; reflexivity).
  split; [exact H|]. split; [exact Hin|].
  exact (proj2 (proj2 (gender_filter_is_plain_equality PyStr.ascii_lower
                         SAMPLE_PRODUCTS))
               H (Some "shoes") None None ysl_boots_chelsea Hin).
Defined.

(** C4.  The three filter passes commute: applied in any of the six orders
    they return the same list, and the products of the query result are
    those that pass each of the three filters taken alone. *)
Theorem filters_order_independent (lower : string -> string)
    (items : list Product) (g c q : option string) :
  let G := if_given g (gender_pass lower) in
  let C := if_given c (category_pass lower) in
  let S := if_given q (search_pass lower) in
  (S (C (G items)) = S (G (C items))
   /\ S (C (G items)) = C (S (G items))
   /\ S (C (G items)) = C (G (S items))
   /\ S (C (G items)) = G (S (C items))
   /\ S (C (G items)) = G (C (S items)))
  /\ (forall s p,
        In p (list_products_body lower items g c q s) <->
        In p (G items) /\ In p (C items) /\ In p (S items)).
Proof.
  intros G C S. subst G C S. cbv beta.
  split.
  - rewrite !gender_pass_filter, !category_pass_filter, !search_pass_filter.
    rewrite !filter_both. repeat split; apply filter_ext; intros p;
      destruct (test_of g (gender_test lower) p),
               (test_of c (category_test lower) p),
               (test_of q (search_test lower) p); reflexivity.
  - intros s p. rewrite list_products_body_filters.
    rewrite gender_pass_filter, category_pass_filter, search_pass_filter.
    split.
    + intros H. apply (Permutation_in _ (sort_pass_perm s _)) in H.
      rewrite !filter_In in H. rewrite !filter_In. tauto.
    + intros H. apply (Permutation_in _ (Permutation_sym (sort_pass_perm s _))).
      rewrite !filter_In in H. rewrite !filter_In. tauto.
Qed.

Lemma filters_order_independent_witness :
  if_given (Some "gold") (search_pass PyStr.ascii_lower)
    (if_given (Some "shoes") (category_pass PyStr.ascii_lower)
       (if_given (Some "women") (gender_pass PyStr.ascii_lower)
          SAMPLE_PRODUCTS))
  = if_given (Some "women") (gender_pass PyStr.ascii_lower)
      (if_given (Some "shoes") (category_pass PyStr.ascii_lower)
         (if_given (Some "gold") (search_pass PyStr.ascii_lower)
            SAMPLE_PRODUCTS)).
Proof.
  exact (proj2 (proj2 (proj2 (proj2 (proj1
           (filters_order_independent PyStr.ascii_lower SAMPLE_PRODUCTS
              (Some "women") (Some "shoes") (Some "gold"))))))).
Defined.


(** C7.  For a non-empty search text the free-text filter keeps, in order,
    exactly the products for which the lowercased text occurs in the
    lowercased name or in the lowercasing of at least one tag; on the sample
    dataset [q=gold] returns only [dior-heel-01], whose name does not contain
    the text ([str.lower] being the lowercasing of ASCII letters on ASCII
    strings). *)
Theorem search_keeps_name_or_tag_matches (lower : string -> string)
    (items : list Product) :
  (forall q,
      q <> "" ->
      (exists test,
          if_given (Some q) (search_pass lower) items = filter test items
          /\ forall p,
               test p = true <->
               PyStr.occurs_in (lower q) (lower (name p))
               \/ exists t,
                    In t (tags p) /\ PyStr.occurs_in (lower q) (lower t))
      /\ (forall p,
            In p (list_products_body lower items None None (Some q) None) <->
            In p items
            /\ (PyStr.occurs_in (lower q) (lower (name p))
                \/ exists t,
                     In t (tags p)
                     /\ PyStr.occurs_in (lower q) (lower t))))
  /\ (lowers_ascii lower ->
      list_products_body lower SAMPLE_PRODUCTS None None (Some "gold") None
      = [dior_heel_01]
      /\ PyStr.contains (lower "gold") (lower (name dior_heel_01)) = false).
Proof.
  split.
  - intros q Hq.
    assert (Ht : PyStr.truthy q = true)
      by (apply PyStrFacts.truthy_iff; exact Hq).
    split.
    + exists (search_test lower q). split.
      * simpl. rewrite Ht. reflexivity.
      * intros p. apply search_test_iff.
    + intros p.
      assert (E : list_products_body lower items None None (Some q) None
                  = filter (search_test lower q) items).
      { unfold list_products_body, if_given, sort_pass, search_pass.
        rewrite Ht. reflexivity. }
      rewrite E, filter_In, search_test_iff. reflexivity.
  - intros lower_ascii. split.
    + rewrite (list_products_body_ascii lower lower_ascii) by reflexivity.
      vm_compute. reflexivity.
    + rewrite !lower_ascii by reflexivity. vm_compute. reflexivity.
Qed.

Lemma search_keeps_name_or_tag_matches_witness :
  lowers_ascii PyStr.ascii_lower
  /\ list_products_body PyStr.ascii_lower SAMPLE_PRODUCTS
       None None (Some "gold") None
     = [dior_heel_01].
Proof.
  assert (H : lowers_ascii PyStr.ascii_lower) by (intros s _; reflexivity).
  split; [exact H|].
  exact (proj1 (proj2 (search_keeps_name_or_tag_matches PyStr.ascii_lower
                         SAMPLE_PRODUCTS) H)).
Defined.

(** C10.  An empty string given for [gender], [category], [q] or [sort] is
    treated like an omitted parameter: it puts no constraint on the
    products. *)
Theorem empty_parameter_is_omitted (lower : string -> string)
    (items : list Product) (g c q s : option string) :
  list_products_body lower items (Some "") c q s
  = list_products_body lower items None c q s
  /\ list_products_body lower items g (Some "") q s
     = list_products_body lower items g None q s
  /\ list_products_body lower items g c (Some "") s
     = list_products_body lower items g c None s
  /\ list_products_body lower items g c q (Some "")
     = list_products_body lower items g c q None
  /\ list_products_body lower items (Some "") (Some "") (Some "") (Some "")
     = items.
Proof. repeat split. Qed.

(** C3, as the code has it.  Every value of [sort] other than the two
    modes (an absent one too) returns the list as it is.  On a list none of
    whose prices is NaN, [price_asc] returns the products in ascending order
    of price and [price_desc] in descending order, and both sorts are
    stable: the products of any given price keep their sequence, so of two
    products of equal price the one that came first still comes first. *)
Theorem sort_by_price_sorted_and_stable (items : list Product) :
  (forall s,
      s <> Some "price_asc" -> s <> Some "price_desc" ->
      sort_pass s items = items)
  /\ (no_nan_prices items ->
      (StronglySorted price_le (sort_pass (Some "price_asc") items)
       /\ Permutation (sort_pass (Some "price_asc") items) items)
      /\ (StronglySorted price_ge (sort_pass (Some "price_desc") items)
          /\ Permutation (sort_pass (Some "price_desc") items) items)
      /\ (forall s v,
            filter (fun p => PyFloat.eq (price p) v) (sort_pass s items)
            = filter (fun p => PyFloat.eq (price p) v) items)
      /\ (forall s a b,
            PyFloat.eq (price a) (price b) = true ->
            before a b items -> before a b (sort_pass s items))).
Proof.
  split.
  - intros s Ha Hd. unfold sort_pass.
    destruct s as [x|]; simpl; [|reflexivity].
    destruct (String.eqb_spec x "price_asc") as [->|]; [congruence|].
    destruct (String.eqb_spec x "price_desc") as [->|]; [congruence|].
    reflexivity.
  - intros Hn. split; [|split; [|split]].
    + split; [|apply sort_pass_perm].
      apply (price_sorted_ascending items Hn).
    + split; [|apply sort_pass_perm].
      apply (price_sorted_descending items Hn).
    + intros s v. apply sort_pass_stable.
    + intros s a b. apply sort_pass_keeps_before.
Qed.

Lemma sort_by_price_sorted_and_stable_witness :
  no_nan_prices SAMPLE_PRODUCTS
  /\ StronglySorted price_le (sort_pass (Some "price_asc") SAMPLE_PRODUCTS).
Proof.
  assert (H : no_nan_prices SAMPLE_PRODUCTS) by (repeat constructor).
  split; [exact H|].
  exact (proj1 (proj1 (proj2
           (sort_by_price_sorted_and_stable SAMPLE_PRODUCTS) H))).
Defined.

(** C3, as stated, fails on a list with a NaN price: [price_asc] returns
    the prices [2.0], [nan], [1.0] in this order, which is not ascending. *)
Lemma price_asc_not_sorted_with_nan :
  sort_pass (Some "price_asc") nan_triple = nan_triple
  /\ ~ StronglySorted price_le (sort_pass (Some "price_asc") nan_triple).
Proof.
  assert (E : sort_pass (Some "price_asc") nan_triple = nan_triple)
    by (vm_compute; reflexivity).
  split; [exact E|]. rewrite E. intros H.
  inversion H as [|x l _ Hall]; subst.
  inversion Hall as [|y l' Hnan _]; subst.
  vm_compute in Hnan. discriminate.
Qed.

(** C5, as the code has it.  On a list none of whose prices is NaN, the
    prices returned by [price_desc] are equal as numbers, position by
    position, to the prices returned by [price_asc] read backwards; when no
    price is the negative zero either, the two sequences are the same. *)
Theorem price_desc_reverses_price_asc (items : list Product)
    (Hn : no_nan_prices items) :
  Forall2 (fun x y => PyFloat.eq x y = true)
          (map price (sort_pass (Some "price_desc") items))
          (rev (map price (sort_pass (Some "price_asc") items)))
  /\ (no_negative_zero items ->
      map price (sort_pass (Some "price_desc") items)
      = rev (map price (sort_pass (Some "price_asc") items))).
Proof.
  pose proof (price_reverse items Hn) as H.
  split; [exact H|]. intros Hz.
  assert (Hd : Forall (fun x => x <> S754_zero true)
                 (map price (sort_pass (Some "price_desc") items))).
  { apply Forall_map.
    apply (Permutation_Forall (Permutation_sym (sort_pass_perm _ items))).
    exact Hz. }
  assert (Ha : Forall (fun x => x <> S754_zero true)
                 (rev (map price (sort_pass (Some "price_asc") items)))).
  { apply Forall_rev, Forall_map.
    apply (Permutation_Forall (Permutation_sym (sort_pass_perm _ items))).
    exact Hz. }
  change (Forall2 (fun x y => PyFloat.eq x y = true)
            (map price (sort_pass (Some "price_desc") items))
            (rev (map price (sort_pass (Some "price_asc") items)))) in H.
  induction H as [|x y l1 l2 Hxy H IH]; [reflexivity|].
  inversion Hd; subst. inversion Ha; subst.
  f_equal; [apply PyFloatFacts.eq_leibniz; assumption | apply IH; assumption].
Qed.

Lemma price_desc_reverses_price_asc_witness :
  no_nan_prices SAMPLE_PRODUCTS
  /\ Forall2 (fun x y => PyFloat.eq x y = true)
       (map price (sort_pass (Some "price_desc") SAMPLE_PRODUCTS))
       (rev (map price (sort_pass (Some "price_asc") SAMPLE_PRODUCTS))).
Proof.
  assert (H : no_nan_prices SAMPLE_PRODUCTS) by (repeat constructor).
  split; [exact H|].
  exact (proj1 (price_desc_reverses_price_asc SAMPLE_PRODUCTS H)).
Defined.

(** C5, as stated, fails on a list with a NaN price: both modes return the
    prices [nan], [1.0] in this order. *)
Lemma price_desc_not_reverse_with_nan :
  map price (sort_pass (Some "price_desc") nan_pair)
  = map price (sort_pass (Some "price_asc") nan_pair)
  /\ map price (sort_pass (Some "price_desc") nan_pair)
     <> rev (map price (sort_pass (Some "price_asc") nan_pair))
  /\ ~ Forall2 (fun x y => PyFloat.eq x y = true)
         (map price (sort_pass (Some "price_desc") nan_pair))
         (rev (map price (sort_pass (Some "price_asc") nan_pair))).
Proof.
  split; [vm_compute; reflexivity|]. split.
  - vm_compute. discriminate.
  - intros H. vm_compute in H. inversion H as [|x y l1 l2 Hxy _]; subst.
    discriminate.
Qed.

(** ** The concrete scenarios of the sample dataset *)

Example women_by_price_desc :
  list_products_body PyStr.ascii_lower SAMPLE_PRODUCTS
    (Some "women") None None (Some "price_desc")
  = [gucci_bag_velvet; dior_heel_01].
Proof. vm_compute. reflexivity. Qed.

Example unisex_requested :
  list_products_body PyStr.ascii_lower SAMPLE_PRODUCTS
    (Some "UNISEX") None None None
  = [balenciaga_tee].
Proof. vm_compute. reflexivity. Qed.

Example all_by_price_asc :
  map id (list_products_body PyStr.ascii_lower SAMPLE_PRODUCTS
            None None None (Some "price_asc"))
  = ["balenciaga-tee"; "dior-heel-01"; "ysl-boots-chelsea";
     "st-laurent-coat"; "gucci-bag-velvet"].
Proof. vm_compute. reflexivity. Qed.

Example unknown_id_not_found :
  get_product_body SAMPLE_PRODUCTS "unknown-id"
  = Raise (HTTPException 404 "Product not found").
Proof. vm_compute. reflexivity. Qed.

Example id_is_case_sensitive :
  get_product_body SAMPLE_PRODUCTS "DIOR-HEEL-01"
  = Raise (HTTPException 404 "Product not found").
Proof. vm_compute. reflexivity. Qed.

(** * Further properties of the code *)

(** ** The routes on top of the resolver *)

Lemma list_products_body_In (lower : string -> string)
    (items : list Product) (g c q s : option string) (p : Product) :
  In p (list_products_body lower items g c q s) -> In p items.
Proof.
  rewrite list_products_body_filters. intros H.
  apply (Permutation_in _ (sort_pass_perm s _)) in H.
  repeat (apply filter_In in H; destruct H as [H _]). exact H.
Qed.

Lemma get_product_body_found (items : list Product) (p : Product) :
  In p items ->
  exists p', get_product_body items (id p) = Return p' /\ id p' = id p.
Proof.
  intros Hin. unfold get_product_body, seq.
  destruct (get_product_loop items (id p)) as [|p'|e] eqn:E.
  - exfalso. apply (proj1 (get_product_loop_normal items (id p)) E p Hin).
    reflexivity.
  - exists p'. split; [reflexivity|].
    apply get_product_loop_return in E.
    destruct E as [l1 [l2 [_ [Hid _]]]]. exact Hid.
  - exfalso. apply (get_product_loop_no_raise items (id p) e E).
Qed.

Section RouteFacts.
Variable str : pyval -> string.
Variable Product_init : doc -> exn + Product.

(** X1.  Whatever the store does, the resolver returns a non-empty list:
    the products of the store when there are some, the sample dataset
    otherwise. *)
Theorem resolver_never_empty (imp : database_import) :
  exists p products,
    fetch_products_from_db_or_sample str Product_init imp
    = Return (p :: products).
Proof.
  unfold fetch_products_from_db_or_sample, try_except_pass, seq, try_block.
  destruct imp as [e|[|] get_documents].
  - eexists. eexists. reflexivity.
  - destruct (get_documents "product") as [e|docs].
    + eexists. eexists. reflexivity.
    + destruct (for_docs str Product_init docs []) as [e|[|p ps]];
        eexists; eexists; reflexivity.
  - eexists. eexists. reflexivity.
Qed.

(** X2.  [list_products] never raises, whatever the store does and
    whatever the parameters are; every product it returns is a product
    of the resolved catalogue; and without parameters (absent or empty) it
    returns that catalogue as it is, which is never empty. *)
Theorem list_products_route_total (lower : string -> string)
    (imp : database_import) :
  exists items,
    fetch_products_from_db_or_sample str Product_init imp = Return items
    /\ items <> []
    /\ (forall g c q s,
          exists result,
            list_products str Product_init lower imp g c q s = Return result
            /\ forall p, In p result -> In p items)
    /\ list_products str Product_init lower imp None None None None
       = Return items
    /\ list_products str Product_init lower imp
         (Some "") (Some "") (Some "") (Some "")
       = Return items.
Proof.
  destruct (resolver_never_empty imp) as [p [ps E]].
  exists (p :: ps). unfold list_products. rewrite E. simpl.
  split; [reflexivity|]. split; [discriminate|]. split.
  - intros g c q s. eexists. split; [reflexivity|].
    intros x. apply list_products_body_In.
  - split; reflexivity.
Qed.

(** X3.  [get_product] has two outcomes only, whatever the store does: it
    returns a product of the resolved catalogue whose id is the requested
    one, or it raises the 404 error; a failure of the store is never
    raised. *)
Theorem get_product_route_outcomes (imp : database_import)
    (product_id : string) :
  exists items,
    fetch_products_from_db_or_sample str Product_init imp = Return items
    /\ ((exists p,
           get_product str Product_init imp product_id = Return p
           /\ In p items /\ id p = product_id)
        \/ (get_product str Product_init imp product_id
            = Raise (HTTPException 404 "Product not found")
            /\ forall p, In p items -> id p <> product_id)).
Proof.
  destruct (fetch_returns str Product_init imp) as [items E].
  exists items. split; [exact E|].
  unfold get_product. rewrite E. simpl. unfold get_product_body, seq.
  destruct (get_product_loop items product_id) as [|p|e] eqn:L.
  - right. split; [reflexivity|].
    apply get_product_loop_normal. exact L.
  - left. exists p. split; [reflexivity|].
    apply get_product_loop_return in L.
    destruct L as [l1 [l2 [-> [Hid _]]]]. split; [|exact Hid].
    apply in_or_app. right. left. reflexivity.
  - exfalso. apply (get_product_loop_no_raise items product_id e L).
Qed.

(** X4.  Every product that [list_products] returns, with any parameters,
    can be looked up: [get_product] called with its id on the same store
    returns a product with that id, never the 404 error. *)
Theorem listed_product_is_found (lower : string -> string)
    (imp : database_import) (g c q s : option string)
    (result : list Product) (p : Product) :
  list_products str Product_init lower imp g c q s = Return result ->
  In p result ->
  exists p',
    get_product str Product_init imp (id p) = Return p' /\ id p' = id p.
Proof.
  unfold list_products, get_product.
  destruct (fetch_returns str Product_init imp) as [items ->]. simpl.
  intros H Hin. injection H as <-.
  apply get_product_body_found.
  apply (list_products_body_In _ _ _ _ _ _ _ Hin).
Qed.

(** X5.  [/featured] and [/new-arrivals] never raise; they return, in the
    order of [list_products] without parameters, exactly the products of
    that list whose flag is set. *)
Theorem flag_routes_filter_the_catalogue (lower : string -> string)
    (imp : database_import) :
  exists items,
    list_products str Product_init lower imp None None None None
    = Return items
    /\ Route.featured str Product_init imp
       = Return (filter (fun p => featured p) items)
    /\ Route.new_arrivals str Product_init imp
       = Return (filter (fun p => new_arrival p) items)
    /\ (forall p,
          (exists l, Route.featured str Product_init imp = Return l
                     /\ In p l) <->
          In p items /\ featured p = true)
    /\ (forall p,
          (exists l, Route.new_arrivals str Product_init imp = Return l
                     /\ In p l) <->
          In p items /\ new_arrival p = true).
Proof.
  destruct (fetch_returns str Product_init imp) as [items E].
  exists items.
  unfold list_products, Route.featured, Route.new_arrivals.
  rewrite E. simpl. repeat split.
  - destruct H as [l [Hl Hin]]. injection Hl as <-.
    apply filter_In in Hin. tauto.
  - destruct H as [l [Hl Hin]]. injection Hl as <-.
    apply filter_In in Hin. tauto.
  - intros [Hin Hf]. eexists. split; [reflexivity|].
    apply filter_In. split; assumption.
  - destruct H as [l [Hl Hin]]. injection Hl as <-.
    apply filter_In in Hin. tauto.
  - destruct H as [l [Hl Hin]]. injection Hl as <-.
    apply filter_In in Hin. tauto.
  - intros [Hin Hf]. eexists. split; [reflexivity|].
    apply filter_In. split; assumption.
Qed.
End RouteFacts.

Lemma listed_product_is_found_witness :
  list_products (fun _ => "") (fun _ => inl (Error "ValidationError"))
    PyStr.ascii_lower (ImportRaises (Error "ImportError"))
    (Some "women") None None None
  = Return [dior_heel_01; gucci_bag_velvet]
  /\ In gucci_bag_velvet [dior_heel_01; gucci_bag_velvet]
  /\ exists p',
       get_product (fun _ => "") (fun _ => inl (Error "ValidationError"))
         (ImportRaises (Error "ImportError")) (id gucci_bag_velvet)
       = Return p'
       /\ id p' = id gucci_bag_velvet.
Proof.
  assert (H1 : list_products (fun _ => "")
                 (fun _ => inl (Error "ValidationError"))
                 PyStr.ascii_lower (ImportRaises (Error "ImportError"))
                 (Some "women") None None None
               = Return [dior_heel_01; gucci_bag_velvet])
    by (vm_compute; reflexivity).
  assert (H2 : In gucci_bag_velvet [dior_heel_01; gucci_bag_velvet])
    by (right; left; reflexivity).
  split; [exact H1|]. split; [exact H2|].
  exact (listed_product_is_found _ _ _ _ _ _ _ _ _ _ H1 H2).
Defined.

(** X6.  When the ids of the catalogue are pairwise distinct, looking up
    the id of any of its products returns that very product. *)
Theorem get_product_of_own_id (items : list Product) (p : Product)
    (Hnd : NoDup (map id items)) (Hin : In p items) :
  get_product_body items (id p) = Return p.
Proof.
  unfold get_product_body, seq.
  assert (H : get_product_loop items (id p) = Return p).
  { induction items as [|y items IH]; [destruct Hin|].
    simpl in Hnd. inversion Hnd as [|? ? Hy Hnd']; subst. simpl.
    destruct Hin as [->|Hin].
    - rewrite String.eqb_refl. reflexivity.
    - destruct (String.eqb_spec (id y) (id p)) as [E|_].
      + exfalso. apply Hy. rewrite E. apply in_map. exact Hin.
      + apply IH; assumption. }
  rewrite H. reflexivity.
Qed.

Lemma get_product_of_own_id_witness :
  NoDup (map id SAMPLE_PRODUCTS)
  /\ In ysl_boots_chelsea SAMPLE_PRODUCTS
  /\ get_product_body SAMPLE_PRODUCTS (id ysl_boots_chelsea)
     = Return ysl_boots_chelsea.
Proof.
  assert (Hnd : NoDup (map id SAMPLE_PRODUCTS)).
  { simpl. repeat constructor; simpl; intros H;
      repeat (destruct H as [H|H]; [discriminate|]); destruct H. }
  assert (Hin : In ysl_boots_chelsea SAMPLE_PRODUCTS)
    by (simpl; tauto).
  split; [exact Hnd|]. split; [exact Hin|].
  exact (get_product_of_own_id SAMPLE_PRODUCTS ysl_boots_chelsea Hnd Hin).
Defined.

(** ** The documents of the store *)

Lemma dict_get_set_same (d : doc) (k : string) (v default : pyval) :
  dict_get (dict_set d k v) k default = v.
Proof.
  induction d as [|[k' v'] d IH]; simpl.
  - rewrite String.eqb_refl. reflexivity.
  - destruct (String.eqb k' k) eqn:E; simpl.
    + rewrite String.eqb_refl. reflexivity.
    + rewrite E. exact IH.
Qed.

Lemma dict_get_set_other (d : doc) (k k' : string) (v default : pyval) :
  k' <> k ->
  dict_get (dict_set d k v) k' default = dict_get d k' default.
Proof.
  intros Hk. induction d as [|[k0 v0] d IH]; simpl.
  - destruct (String.eqb_spec k k'); [congruence|reflexivity].
  - destruct (String.eqb_spec k0 k) as [->|Hk0]; simpl.
    + destruct (String.eqb_spec k k'); [congruence|reflexivity].
    + destruct (String.eqb k0 k'); [reflexivity|exact IH].
Qed.

Lemma dict_get_without (d : doc) (k k' : string) (default : pyval) :
  k' <> k ->
  dict_get (filter (fun kv => negb (String.eqb (fst kv) k)) d) k' default
  = dict_get d k' default.
Proof.
  intros Hk. induction d as [|[k0 v0] d IH]; simpl; [reflexivity|].
  destruct (String.eqb_spec k0 k) as [->|Hk0]; simpl.
  - destruct (String.eqb_spec k k'); [congruence|exact IH].
  - destruct (String.eqb k0 k'); [reflexivity|exact IH].
Qed.

Lemma dict_has_without (d : doc) (k : string) :
  dict_has (filter (fun kv => negb (String.eqb (fst kv) k)) d) k = false.
Proof.
  unfold dict_has. induction d as [|[k0 v0] d IH]; simpl; [reflexivity|].
  destruct (String.eqb k0 k) eqn:E; simpl; [exact IH|].
  rewrite E. exact IH.
Qed.

Lemma dict_has_set (d : doc) (k : string) (v : pyval) :
  dict_has (dict_set d k v) k = true.
Proof.
  unfold dict_has. induction d as [|[k0 v0] d IH]; simpl.
  - rewrite String.eqb_refl. reflexivity.
  - destruct (String.eqb k0 k) eqn:E; simpl.
    + rewrite String.eqb_refl. reflexivity.
    + rewrite E. exact IH.
Qed.

Lemma dict_has_without_other (d : doc) (k k' : string) :
  k' <> k ->
  dict_has (filter (fun kv => negb (String.eqb (fst kv) k)) d) k'
  = dict_has d k'.
Proof.
  intros Hk. unfold dict_has.
  induction d as [|[k0 v0] d IH]; simpl; [reflexivity|].
  destruct (String.eqb_spec k0 k) as [->|Hk0]; simpl.
  - destruct (String.eqb_spec k k'); [congruence|exact IH].
  - rewrite IH. reflexivity.
Qed.

Lemma dict_get_present (d : doc) (k : string) (a b : pyval) :
  dict_has d k = true -> dict_get d k a = dict_get d k b.
Proof.
  unfold dict_has. induction d as [|[k0 v0] d IH]; simpl; [discriminate|].
  destruct (String.eqb k0 k); [reflexivity|exact IH].
Qed.

Lemma dict_get_absent (d : doc) (k : string) (a : pyval) :
  dict_has d k = false -> dict_get d k a = a.
Proof.
  unfold dict_has. induction d as [|[k0 v0] d IH]; simpl; [reflexivity|].
  destruct (String.eqb k0 k); [discriminate|exact IH].
Qed.

(** X7.  The keyword arguments built from a document never hold the key
    [_id] and always hold the key [id], bound to a string: the [str] of
    the value of [_id] when the document has one, else of the value of
    [id], else of [None]; every other key is passed on with its value.
    A stored [id] is thus overridden whenever [_id] is present. *)
Theorem kwargs_of_doc_keys (str : pyval -> string)
    (Product_init : doc -> exn + Product) (d : doc) :
  product_of_doc str Product_init d = Product_init (kwargs_of_doc str d)
  /\ dict_has (kwargs_of_doc str d) "_id" = false
  /\ dict_has (kwargs_of_doc str d) "id" = true
  /\ (forall default,
        dict_get (kwargs_of_doc str d) "id" default
        = VStr (str (if dict_has d "_id" then dict_get d "_id" VNone
                     else if dict_has d "id" then dict_get d "id" VNone
                          else VNone)))
  /\ (forall k default,
        k <> "id" -> k <> "_id" ->
        dict_get (kwargs_of_doc str d) k default = dict_get d k default).
Proof.
  unfold kwargs_of_doc. split; [reflexivity|]. split; [|split; [|split]].
  - apply dict_has_without.
  - rewrite dict_has_without_other by discriminate. apply dict_has_set.
  - intros default. rewrite dict_get_without by discriminate.
    rewrite dict_get_set_same. do 2 f_equal.
    destruct (dict_has d "_id") eqn:E1.
    + apply dict_get_present. exact E1.
    + rewrite (dict_get_absent _ _ _ E1). destruct (dict_has d "id") eqn:E2.
      * reflexivity.
      * apply dict_get_absent. exact E2.
  - intros k default Hid H_id.
    rewrite dict_get_without by exact H_id.
    apply dict_get_set_other. exact Hid.
Qed.

(** ** More on the filters *)

Lemma append_assoc_str (a b c : string) :
  ((a ++ b) ++ c)%string = (a ++ b ++ c)%string.
Proof. induction a as [|x a IH]; simpl; congruence. Qed.

Lemma occurs_in_trans (a b c : string) :
  PyStr.occurs_in a b -> PyStr.occurs_in b c -> PyStr.occurs_in a c.
Proof.
  intros [p1 [s1 ->]] [p2 [s2 ->]].
  exists (p2 ++ p1)%string, (s1 ++ s2)%string.
  rewrite !append_assoc_str. reflexivity.
Qed.

(** X8.  A search text whose lowercasing occurs in the lowercasing of
    another one is the less selective of the two: every product the longer
    text matches is matched by the shorter one, so lengthening a search
    text never adds a product to the result. *)
Theorem search_is_monotone (lower : string -> string)
    (items : list Product) (q1 q2 : string)
    (Hq1 : q1 <> "") (Hq2 : q2 <> "")
    (Hsub : PyStr.occurs_in (lower q1) (lower q2)) :
  (forall p, search_test lower q2 p = true -> search_test lower q1 p = true)
  /\ (forall g c s p,
        In p (list_products_body lower items g c (Some q2) s) ->
        In p (list_products_body lower items g c (Some q1) s)).
Proof.
  assert (Ht : forall p, search_test lower q2 p = true ->
                         search_test lower q1 p = true).
  { intros p. rewrite !search_test_iff. intros [H|[t [Ht H]]].
    - left. apply (occurs_in_trans _ _ _ Hsub H).
    - right. exists t. split; [exact Ht|].
      apply (occurs_in_trans _ _ _ Hsub H). }
  split; [exact Ht|].
  intros g c s p. rewrite !list_products_body_filters. intros H.
  apply (Permutation_in _ (sort_pass_perm s _)) in H.
  apply (Permutation_in _ (Permutation_sym (sort_pass_perm s _))).
  rewrite filter_In in H. rewrite filter_In.
  destruct H as [H Hq]. split; [exact H|].
  apply PyStrFacts.truthy_iff in Hq1, Hq2.
  simpl in Hq |- *. rewrite Hq2 in Hq. rewrite Hq1. apply Ht. exact Hq.
Qed.

Lemma search_is_monotone_witness :
  "old" <> "" /\ "gold" <> ""
  /\ PyStr.occurs_in (PyStr.ascii_lower "old") (PyStr.ascii_lower "gold")
  /\ search_test PyStr.ascii_lower "old" dior_heel_01 = true.
Proof.
  assert (H1 : "old" <> "") by discriminate.
  assert (H2 : "gold" <> "") by discriminate.
  assert (H3 : PyStr.occurs_in (PyStr.ascii_lower "old")
                 (PyStr.ascii_lower "gold"))
    by (exists "g", ""; reflexivity).
  split; [exact H1|]. split; [exact H2|]. split; [exact H3|].
  apply (proj1 (search_is_monotone PyStr.ascii_lower SAMPLE_PRODUCTS
                  "old" "gold" H1 H2 H3)).
  vm_compute. reflexivity.
Defined.

(** X9.  The gender and the category filters see their parameter through
    [lower] only: two parameter values with the same lowercasing select the
    same products (for the gender filter although its second test compares
    the parameter as it is). *)
Theorem filters_are_case_insensitive (lower : string -> string)
    (items : list Product) (v1 v2 : string)
    (Hv : lower v1 = lower v2) :
  gender_pass lower v1 items = gender_pass lower v2 items
  /\ category_pass lower v1 items = category_pass lower v2 items.
Proof.
  split.
  - apply filter_ext. intros p. rewrite !gender_test_plain.
    unfold plain_gender_test. rewrite Hv. reflexivity.
  - apply filter_ext. intros p. unfold category_test.
    rewrite Hv. reflexivity.
Qed.

Lemma filters_are_case_insensitive_witness :
  PyStr.ascii_lower "UNISEX" = PyStr.ascii_lower "unisex"
  /\ gender_pass PyStr.ascii_lower "UNISEX" SAMPLE_PRODUCTS
     = gender_pass PyStr.ascii_lower "unisex" SAMPLE_PRODUCTS.
Proof.
  assert (H : PyStr.ascii_lower "UNISEX" = PyStr.ascii_lower "unisex")
    by reflexivity.
  split; [exact H|].
  exact (proj1 (filters_are_case_insensitive PyStr.ascii_lower
                  SAMPLE_PRODUCTS "UNISEX" "unisex" H)).
Defined.

(** ** Sorting and filtering *)

Section SortingAndFiltering.
Context {A K : Type}.
Variable lt : K -> K -> bool.
Variable key : A -> K.
Variable good : K -> Prop.
Hypothesis good_lt_asym :
  forall a b, good a -> good b -> lt a b = true -> lt b a = false.
Hypothesis good_le_trans :
  forall a b c, good a -> good b -> good c ->
                lt b a = false -> lt c b = false -> lt c a = false.

Lemma sort_by_of_sorted (l : list A) :
  StronglySorted (not_after lt key) l -> sort_by lt key l = l.
Proof.
  intros Hs. induction Hs as [|x l Hs IH Hx]; simpl; [reflexivity|].
  rewrite IH. destruct l as [|y l]; simpl; [reflexivity|].
  inversion Hx as [|? ? Hxy _]; subst. unfold not_after in Hxy.
  rewrite Hxy. reflexivity.
Qed.

Lemma filter_insert_by_sorted (f : A -> bool) (x : A) (l : list A) :
  good (key x) -> good_keys key good l ->
  StronglySorted (not_after lt key) l ->
  filter f (insert_by lt key x l)
  = if f x then insert_by lt key x (filter f l) else filter f l.
Proof.
  intros Hx Hl Hs. induction Hs as [|y l Hs IH Hy]; simpl.
  - destruct (f x); reflexivity.
  - inversion Hl as [|? ? Hgy Hgl]; subst.
    destruct (lt (key y) (key x)) eqn:Hlt; simpl.
    + rewrite (IH Hgl). destruct (f x), (f y); simpl; try reflexivity.
      rewrite Hlt. reflexivity.
    + destruct (f x) eqn:Hfx; [|reflexivity].
      destruct (f y) eqn:Hfy; simpl.
      * rewrite Hlt. reflexivity.
      * destruct (filter f l) as [|z t] eqn:E; simpl; [reflexivity|].
        assert (Hz : In z l).
        { assert (Hz : In z (filter f l)) by (rewrite E; left; reflexivity).
          apply filter_In in Hz. tauto. }
        unfold good_keys in Hgl. rewrite Forall_forall in Hy, Hgl.
        assert (Hzx : lt (key z) (key x) = false).
        { apply good_le_trans with (b := key y); auto. apply Hy. exact Hz. }
        rewrite Hzx. reflexivity.
Qed.

Lemma filter_sort_by_commute (f : A -> bool) (l : list A) :
  good_keys key good l ->
  filter f (sort_by lt key l) = sort_by lt key (filter f l).
Proof.
  induction l as [|x l IH]; intros Hl; simpl; [reflexivity|].
  inversion Hl as [|? ? Hx Hl']; subst.
  rewrite filter_insert_by_sorted.
  - rewrite (IH Hl'). destruct (f x); reflexivity.
  - exact Hx.
  - apply (good_keys_perm key good l); [|exact Hl'].
    apply Permutation_sym, sort_by_perm.
  - apply (sort_by_sorted lt key good good_lt_asym good_le_trans).
    exact Hl'.
Qed.

Lemma filter_sorted_commute (f : A -> bool) (reverse : bool) (l : list A) :
  good_keys key good l ->
  filter f (sorted lt key reverse l) = sorted lt key reverse (filter f l).
Proof.
  intros Hl. unfold sorted. destruct reverse.
  - rewrite filter_rev, filter_sort_by_commute, filter_rev; [reflexivity|].
    apply (good_keys_perm key good l); [apply Permutation_rev|exact Hl].
  - apply filter_sort_by_commute. exact Hl.
Qed.

Lemma sorted_idempotent (reverse : bool) (l : list A) :
  good_keys key good l ->
  sorted lt key reverse (sorted lt key reverse l) = sorted lt key reverse l.
Proof.
  intros Hl. unfold sorted. destruct reverse.
  - rewrite rev_involutive. f_equal. apply sort_by_of_sorted.
    apply (sort_by_sorted lt key good good_lt_asym good_le_trans).
    apply (good_keys_perm key good l); [apply Permutation_rev|exact Hl].
  - apply sort_by_of_sorted.
    apply (sort_by_sorted lt key good good_lt_asym good_le_trans).
    exact Hl.
Qed.
End SortingAndFiltering.

Lemma sort_pass_cases (s : option string) :
  (forall items, sort_pass s items = items)
  \/ exists reverse,
       forall items,
         sort_pass s items = sorted PyFloat.lt price reverse items.
Proof.
  unfold sort_pass. destruct s as [x|]; [|left; reflexivity].
  destruct (String.eqb_spec x "price_asc") as [->|Ha].
  - right. exists false. reflexivity.
  - destruct (String.eqb_spec x "price_desc") as [->|Hd].
    + right. exists true. reflexivity.
    + left. intros items. simpl.
      destruct (String.eqb_spec x "price_asc"); [congruence|].
      destruct (String.eqb_spec x "price_desc"); [congruence|].
      reflexivity.
Qed.

Lemma sort_pass_filter (s : option string) (f : Product -> bool)
    (items : list Product) :
  no_nan_prices items ->
  sort_pass s (filter f items) = filter f (sort_pass s items).
Proof.
  intros Hn. destruct (sort_pass_cases s) as [E|[r E]]; rewrite !E.
  - reflexivity.
  - symmetry. apply filter_sorted_commute with (good := not_nan).
    + intros a b _ _. apply PyFloatFacts.lt_asym.
    + intros a b c. apply PyFloatFacts.le_trans.
    + exact Hn.
Qed.

(** X10.  On a catalogue none of whose prices is NaN, sorting and
    filtering commute: the query returns what the three tests keep of the
    sorted catalogue, so a parameter added to a query removes products
    from its result and leaves the others in their positions relative to
    each other. *)
Theorem sort_commutes_with_filters (lower : string -> string)
    (items : list Product) (Hn : no_nan_prices items)
    (g c q s : option string) :
  list_products_body lower items g c q s
  = filter (query_test lower g c q) (sort_pass s items)
  /\ list_products_body lower items g c q s
     = filter (query_test lower g c q)
              (list_products_body lower items None None None s).
Proof.
  assert (E : list_products_body lower items g c q s
              = filter (query_test lower g c q) (sort_pass s items)).
  { rewrite list_products_body_filters, !filter_both.
    rewrite (sort_pass_filter s _ items Hn).
    apply filter_ext. intros p. unfold query_test.
    rewrite andb_assoc. reflexivity. }
  split; [exact E|]. rewrite E. reflexivity.
Qed.

Lemma sort_commutes_with_filters_witness :
  no_nan_prices SAMPLE_PRODUCTS
  /\ list_products_body PyStr.ascii_lower SAMPLE_PRODUCTS
       (Some "men") None None (Some "price_asc")
     = filter (query_test PyStr.ascii_lower (Some "men") None None)
              (sort_pass (Some "price_asc") SAMPLE_PRODUCTS).
Proof.
  assert (H : no_nan_prices SAMPLE_PRODUCTS) by (repeat constructor).
  split; [exact H|].
  exact (proj1 (sort_commutes_with_filters PyStr.ascii_lower
                  SAMPLE_PRODUCTS H (Some "men") None None
                  (Some "price_asc"))).
Defined.

(** X11.  On a list none of whose prices is NaN, sorting is idempotent:
    sorting the outcome of a sort again in the same mode changes nothing,
    and [price_asc] leaves a list that is already in ascending order of
    price as it is. *)
Theorem sort_by_price_idempotent (items : list Product)
    (Hn : no_nan_prices items) (s : option string) :
  sort_pass s (sort_pass s items) = sort_pass s items
  /\ (StronglySorted price_le items ->
      sort_pass (Some "price_asc") items = items).
Proof.
  split.
  - destruct (sort_pass_cases s) as [E|[r E]]; rewrite !E.
    + reflexivity.
    + apply sorted_idempotent with (good := not_nan).
      * intros a b _ _. apply PyFloatFacts.lt_asym.
      * intros a b c. apply PyFloatFacts.le_trans.
      * exact Hn.
  - intros Hs.
    change (sort_by PyFloat.lt price items = items).
    apply sort_by_of_sorted.
    apply StronglySorted_impl_in with (R := price_le); [|exact Hs].
    intros x y Hx Hy H. unfold no_nan_prices in Hn.
    rewrite Forall_forall in Hn. unfold price_le in H.
    rewrite PyFloatFacts.le_not_lt in H by (apply Hn; assumption).
    unfold not_after. apply negb_true_iff. exact H.
Qed.

Lemma sort_by_price_idempotent_witness :
  no_nan_prices SAMPLE_PRODUCTS
  /\ sort_pass (Some "price_desc")
       (sort_pass (Some "price_desc") SAMPLE_PRODUCTS)
     = sort_pass (Some "price_desc") SAMPLE_PRODUCTS.
Proof.
  assert (H : no_nan_prices SAMPLE_PRODUCTS) by (repeat constructor).
  split; [exact H|].
  exact (proj1 (sort_by_price_idempotent SAMPLE_PRODUCTS H
                  (Some "price_desc"))).
Defined.

(** ** More on checkout *)

Lemma line_totals_raises (its : list CartItem.t) :
  (exists e, line_totals its = inl e) <->
  exists it, In it its /\ PyFloat.of_int (CartItem.quantity it) = None.
Proof.
  induction its as [|it its IH]; simpl.
  - split; [intros [e H]; discriminate | intros [it [[] _]]].
  - unfold line_total.
    destruct (PyFloat.of_int (CartItem.quantity it)) as [qf|] eqn:Hq.
    + destruct (line_totals its) as [e|xs].
      * split.
        -- intros _. destruct (proj1 IH) as [it' [Hin H]];
             [eexists; reflexivity|].
           exists it'. split; [right; exact Hin|exact H].
        -- intros _. eexists. reflexivity.
      * split; [intros [e H]; discriminate|].
        intros [it' [[<-|Hin] H]]; [congruence|].
        destruct (proj2 IH) as [e He]; [exists it'; split; assumption|].
        discriminate.
    + split.
      * intros _. exists it. split; [left; reflexivity|exact Hq].
      * intros _. eexists. reflexivity.
Qed.

Lemma line_totals_error (its : list CartItem.t) (e : exn) :
  line_totals its = inl e -> e = Error "OverflowError".
Proof.
  revert e. induction its as [|it its IH]; intros e; simpl; [discriminate|].
  unfold line_total.
  destruct (PyFloat.of_int (CartItem.quantity it)).
  - destruct (line_totals its) as [e'|xs]; [|discriminate].
    intros H. injection H as <-. apply IH. reflexivity.
  - intros H. injection H as <-. reflexivity.
Qed.

(** X12.  [checkout] raises exactly when the quantity of some item is too
    large to be converted to a float, and then it raises [OverflowError];
    in every other case it returns, with [ok] set and the fixed message;
    a zero or a negative quantity is accepted. *)
Theorem checkout_raises_iff_overflow (payload : CheckoutRequest) :
  (checkout payload = Raise (Error "OverflowError") <->
   exists it,
     In it (items payload)
     /\ PyFloat.of_int (CartItem.quantity it) = None)
  /\ ((exists t,
         checkout payload
         = Return {| ok := true; total := t;
                     message := "Checkout initialized" |}) <->
      forall it,
        In it (items payload) ->
        PyFloat.of_int (CartItem.quantity it) <> None)
  /\ (checkout payload = Raise (Error "OverflowError")
      \/ exists t,
           checkout payload
           = Return {| ok := true; total := t;
                       message := "Checkout initialized" |}).
Proof.
  unfold checkout.
  pose proof (line_totals_raises (items payload)) as Hr.
  pose proof (line_totals_error (items payload)) as He.
  destruct (line_totals (items payload)) as [e|xs].
  - rewrite (He e eq_refl). split; [|split].
    + split; [intros _|reflexivity]. apply Hr. eexists. reflexivity.
    + split; [intros [t H]; discriminate|]. intros H. exfalso.
      destruct (proj1 Hr) as [it [Hin Hq]]; [eexists; reflexivity|].
      apply (H it Hin Hq).
    + left. reflexivity.
  - split; [|split].
    + split; [discriminate|]. intros H. apply Hr in H.
      destruct H as [e H]. discriminate.
    + split; [|intros _; eexists; reflexivity].
      intros _ it Hin Hq.
      destruct (proj2 Hr) as [e H]; [exists it; split; assumption|].
      discriminate.
    + right. eexists. reflexivity.
Qed.

Lemma line_totals_priced (its1 its2 : list CartItem.t) :
  map priced its1 = map priced its2 -> line_totals its1 = line_totals its2.
Proof.
  revert its2. induction its1 as [|a its1 IH]; intros [|b its2] H;
    simpl in H; try discriminate; [reflexivity|].
  injection H as Hp Hq H. simpl. rewrite (IH _ H).
  unfold line_total. rewrite Hp, Hq. reflexivity.
Qed.

(** X13.  The outcome of [checkout] depends on the prices and the
    quantities of the items, in their order, and on nothing else: the ids,
    names, sizes and images of the items, the email and the shipping
    address have no effect. *)
Theorem checkout_depends_on_prices_and_quantities
    (payload1 payload2 : CheckoutRequest)
    (H : map priced (items payload1) = map priced (items payload2)) :
  checkout payload1 = checkout payload2.
Proof.
  unfold checkout. rewrite (line_totals_priced _ _ H). reflexivity.
Qed.

Lemma checkout_depends_on_prices_and_quantities_witness :
  map priced (items scenario_request)
  = map priced
      (items {| items := map (fun it =>
                                {| CartItem.id := "x";
                                   CartItem.name := "renamed";
                                   CartItem.price := CartItem.price it;
                                   CartItem.size := Some "M";
                                   CartItem.quantity := CartItem.quantity it;
                                   CartItem.image := None |})
                             scenario_items;
                email := Some "a@b.c";
                shipping_address := Some "1 Main St" |})
  /\ checkout scenario_request
     = checkout
         {| items := map (fun it =>
                            {| CartItem.id := "x";
                               CartItem.name := "renamed";
                               CartItem.price := CartItem.price it;
                               CartItem.size := Some "M";
                               CartItem.quantity := CartItem.quantity it;
                               CartItem.image := None |})
                         scenario_items;
            email := Some "a@b.c";
            shipping_address := Some "1 Main St" |}.
Proof.
  assert (H : map priced (items scenario_request)
              = map priced
                  (items {| items := map (fun it =>
                                {| CartItem.id := "x";
                                   CartItem.name := "renamed";
                                   CartItem.price := CartItem.price it;
                                   CartItem.size := Some "M";
                                   CartItem.quantity := CartItem.quantity it;
                                   CartItem.image := None |})
                             scenario_items;
                            email := Some "a@b.c";
                            shipping_address := Some "1 Main St" |}))
    by reflexivity.
  split; [exact H|].
  exact (checkout_depends_on_prices_and_quantities _ _ H).
Defined.

Lemma sum_of_zeros (xs : list PyFloat.float) (s : bool) :
  Forall (fun x => exists t, x = S754_zero t) xs ->
  exists u,
    fold_left PyFloat.add xs (S754_zero s) = S754_zero u
    /\ (s = false -> u = false).
Proof.
  intros H. revert s. induction H as [|x xs [t ->] _ IH]; intros s; simpl.
  - exists s. split; [reflexivity|intros E; exact E].
  - destruct s, t; simpl.
    + apply IH.
    + destruct (IH false) as [u [E Hu]]. exists u.
      split; [exact E|discriminate].
    + destruct (IH false) as [u [E Hu]]. exists u.
      split; [exact E|exact Hu].
    + destruct (IH false) as [u [E Hu]]. exists u.
      split; [exact E|exact Hu].
Qed.

(** X14.  A cart with at least one item in which every quantity is zero
    and every price is finite has the total 0.0. *)
Theorem checkout_of_zero_quantities (payload : CheckoutRequest)
    (Hne : items payload <> [])
    (H : forall it,
           In it (items payload) ->
           CartItem.quantity it = 0%Z
           /\ is_finite (CartItem.price it) = true) :
  checkout payload
  = Return {| ok := true; total := PyFloat.zero;
              message := "Checkout initialized" |}.
Proof.
  clear Hne. unfold checkout.
  assert (Hx : exists xs,
             line_totals (items payload) = inr xs
             /\ Forall (fun x => exists t, x = S754_zero t) xs).
  { induction (items payload) as [|it its IH].
    - exists []. split; [reflexivity|constructor].
    - destruct IH as [xs [E HF]].
      { intros it' Hin. apply H. right. exact Hin. }
      destruct (H it (or_introl Logic.eq_refl)) as [Hq Hp].
      simpl. unfold line_total. rewrite Hq. simpl. rewrite E.
      eexists. split; [reflexivity|]. constructor; [|exact HF].
      destruct (CartItem.price it) as [s|s| |s m e]; try discriminate;
        eexists; reflexivity. }
  destruct Hx as [xs [E HF]]. rewrite E.
  destruct (sum_of_zeros xs false HF) as [u [Es Hu]].
  unfold PyFloat.sum, PyFloat.zero. rewrite Es, (Hu Logic.eq_refl).
  reflexivity.
Qed.

Lemma checkout_of_zero_quantities_witness :
  items {| items := [ {| CartItem.id := "a"; CartItem.name := "a";
                         CartItem.price := PyFloat.of_decimal 49995 3;
                         CartItem.size := None; CartItem.quantity := 0;
                         CartItem.image := None |} ];
           email := None; shipping_address := None |} <> []
  /\ checkout
       {| items := [ {| CartItem.id := "a"; CartItem.name := "a";
                        CartItem.price := PyFloat.of_decimal 49995 3;
                        CartItem.size := None; CartItem.quantity := 0;
                        CartItem.image := None |} ];
          email := None; shipping_address := None |}
     = Return {| ok := true; total := PyFloat.zero;
                 message := "Checkout initialized" |}.
Proof.
  assert (Hne : items {| items := [ {| CartItem.id := "a";
                                       CartItem.name := "a";
                                       CartItem.price :=
                                         PyFloat.of_decimal 49995 3;
                                       CartItem.size := None;
                                       CartItem.quantity := 0;
                                       CartItem.image := None |} ];
                         email := None; shipping_address := None |} <> [])
    by discriminate.
  split; [exact Hne|].
  apply (checkout_of_zero_quantities _ Hne).
  intros it [<-|[]]. split; reflexivity.
Defined.

(** X15.  When the float sum of the line totals is a finite value
    [m * 2^e] that is not an integer ([e < 0]), the returned total is the
    float nearest to a decimal [n / 100] that lies within half a hundredth
    of the sum (a zero of the sign of the sum when [n] is 0). *)
Theorem checkout_total_within_half_hundredth (payload : CheckoutRequest)
    (xs : list PyFloat.float) (s : bool) (m : positive) (e : Z)
    (Hxs : line_totals (items payload) = inr xs)
    (Hsum : PyFloat.sum xs = S754_finite s m e) (He : (e < 0)%Z) :
  exists n,
    (2 * Z.abs (Zpos m * 100 - n * 2 ^ (- e)) <= 2 ^ (- e))%Z
    /\ checkout payload
       = Return {| ok := true;
                   total := if (n =? 0)%Z then S754_zero s
                            else PyFloat.nearest_ratio s n 100;
                   message := "Checkout initialized" |}.
Proof.
  destruct (PyFloatFacts.round2_finite s m e He) as [n [Hn Hr]].
  exists n. split; [exact Hn|].
  unfold checkout. rewrite Hxs, Hsum, Hr. reflexivity.
Qed.

Lemma checkout_total_within_half_hundredth_witness :
  line_totals (items scenario_request)
  = inr [S754_finite false 7036874417766400 (-45);
         S754_finite false 7036170730324623 (-47)]
  /\ PyFloat.sum [S754_finite false 7036874417766400 (-45);
                  S754_finite false 7036170730324623 (-47)]
     = S754_finite false 8795917100347556 (-45)
  /\ (-45 < 0)%Z
  /\ exists n,
       (2 * Z.abs (Zpos 8795917100347556 * 100 - n * 2 ^ (- (-45)))
        <= 2 ^ (- (-45)))%Z
       /\ checkout scenario_request
          = Return {| ok := true;
                      total := if (n =? 0)%Z then S754_zero false
                               else PyFloat.nearest_ratio false n 100;
                      message := "Checkout initialized" |}.
Proof.
  assert (H1 : line_totals (items scenario_request)
               = inr [S754_finite false 7036874417766400 (-45);
                      S754_finite false 7036170730324623 (-47)])
    by (vm_compute; reflexivity).
  assert (H2 : PyFloat.sum [S754_finite false 7036874417766400 (-45);
                            S754_finite false 7036170730324623 (-47)]
               = S754_finite false 8795917100347556 (-45))
    by (vm_compute; reflexivity).
  assert (H3 : (-45 < 0)%Z) by lia.
  split; [exact H1|]. split; [exact H2|]. split; [exact H3|].
  exact (checkout_total_within_half_hundredth scenario_request _ _ _ _
           H1 H2 H3).
Defined.

(** *** Integers that convert to a float *)

Lemma digits2_pos_iter_xO (m : positive) (k : positive) :
  digits2_pos (Pos.iter xO m k) = (digits2_pos m + k)%positive.
Proof.
  revert m. induction k using Pos.peano_ind; intros m.
  - simpl. lia.
  - rewrite Pos.iter_succ. simpl. rewrite IHk. lia.
Qed.

Lemma digits2_pos_size (m : positive) : digits2_pos m = Pos.size m.
Proof.
  induction m as [m IH|m IH|]; [| |reflexivity];
    cbn [digits2_pos Pos.size]; rewrite IH; reflexivity.
Qed.

Lemma digits2_pos_bound (m : positive) :
  (Zpos m < 2 ^ 53)%Z -> (Zpos (digits2_pos m) <= 53)%Z.
Proof.
  intros H. rewrite digits2_pos_size.
  pose proof (Pos.size_le m) as Hs.
  destruct (Z.le_gt_cases (Zpos (Pos.size m)) 53) as [Hle|Hgt]; [exact Hle|].
  exfalso.
  assert (H2 : (2 ^ 54 <= 2 ^ Zpos (Pos.size m))%Z)
    by (apply Z.pow_le_mono_r; lia).
  assert (H3 : (Zpos (2 ^ Pos.size m) <= Zpos m~0)%Z) by exact Hs.
  rewrite Pos2Z.inj_pow in H3. change (Zpos 2) with 2%Z in H3.
  change (2 ^ 54)%Z with (2 * 2 ^ 53)%Z in H2. lia.
Qed.

Lemma binary_round_aux_exact (s : bool) (mz : positive) (ez : Z) :
  fexp 53 1024 (Zpos (digits2_pos mz) + ez) = ez -> (ez <= 971)%Z ->
  binary_round_aux 53 1024 s (Zpos mz) ez loc_Exact = S754_finite s mz ez.
Proof.
  intros Hf He. unfold binary_round_aux, shr_fexp.
  change (Zdigits2 (Zpos mz)) with (Zpos (digits2_pos mz)).
  rewrite Hf, Z.sub_diag.
  cbn [shr shr_record_of_loc shr_m loc_of_shr_record round_nearest_even].
  change (Zdigits2 (Zpos mz)) with (Zpos (digits2_pos mz)).
  rewrite Hf, Z.sub_diag.
  cbn [shr shr_record_of_loc shr_m].
  destruct (Z.leb_spec ez (1024 - 53)); [reflexivity|lia].
Qed.

Lemma binary_round_small (s : bool) (m : positive) :
  (Zpos m < 2 ^ 53)%Z ->
  exists mz ez, binary_round 53 1024 s m 0 = S754_finite s mz ez.
Proof.
  intros H. apply digits2_pos_bound in H.
  unfold binary_round, shl_align.
  assert (Hf : fexp 53 1024 (Zpos (digits2_pos m) + 0)
               = (Zpos (digits2_pos m) - 53)%Z).
  { unfold fexp, emin. lia. }
  rewrite Hf.
  destruct (Zpos (digits2_pos m) - 53 - 0)%Z as [|k|k] eqn:Ek; try lia.
  - exists m, 0%Z. apply binary_round_aux_exact; [|lia].
    unfold fexp, emin. lia.
  - exists (Pos.iter xO m k), (Zpos (digits2_pos m) - 53)%Z.
    apply binary_round_aux_exact; [|lia].
    rewrite digits2_pos_iter_xO. unfold fexp, emin. lia.
Qed.

Lemma of_int_small (n : Z) :
  (Z.abs n < 2 ^ 53)%Z -> PyFloat.of_int n <> None.
Proof.
  intros H. unfold PyFloat.of_int, binary_normalize, PyFloat.prec, PyFloat.emax.
  destruct n as [|m|m].
  - discriminate.
  - destruct (binary_round_small false m) as [mz [ez ->]]; [exact H|].
    discriminate.
  - destruct (binary_round_small true m) as [mz [ez ->]]; [exact H|].
    discriminate.
Qed.

(** X16.  [checkout] returns, and does not raise, for every cart whose
    quantities are smaller than 2^53 in absolute value: such an integer
    always converts to a float. *)
Theorem checkout_returns_for_small_quantities (payload : CheckoutRequest)
    (H : forall it,
           In it (items payload) ->
           (Z.abs (CartItem.quantity it) < 2 ^ 53)%Z) :
  exists xs,
    line_totals (items payload) = inr xs
    /\ checkout payload
       = Return {| ok := true;
                   total := PyFloat.round2 (PyFloat.sum xs);
                   message := "Checkout initialized" |}.
Proof.
  destruct (line_totals_ok (items payload)) as [xs [E _]].
  { intros it Hin. apply of_int_small. apply H. exact Hin. }
  exists xs. split; [exact E|]. unfold checkout. rewrite E. reflexivity.
Qed.

Lemma checkout_returns_for_small_quantities_witness :
  (forall it,
      In it (items scenario_request) ->
      (Z.abs (CartItem.quantity it) < 2 ^ 53)%Z)
  /\ exists xs,
       line_totals (items scenario_request) = inr xs
       /\ checkout scenario_request
          = Return {| ok := true;
                      total := PyFloat.round2 (PyFloat.sum xs);
                      message := "Checkout initialized" |}.
Proof.
  assert (H : forall it,
             In it (items scenario_request) ->
             (Z.abs (CartItem.quantity it) < 2 ^ 53)%Z).
  { intros it Hin. simpl in Hin.
    destruct Hin as [<-|[<-|[]]]; reflexivity. }
  split; [exact H|].
  exact (checkout_returns_for_small_quantities scenario_request H).
Defined.

(** ** The diagnostic route *)

Lemma py_len_take (n : nat) (s : string) : py_len (py_take n s) <= n.
Proof.
  revert n. induction s as [|c s IH]; intros n; simpl; [lia|].
  destruct (is_continuation c) eqn:E; simpl; rewrite ?E.
  - apply IH.
  - destruct n as [|n]; simpl; [lia|]. rewrite E.
    specialize (IH n). lia.
Qed.

Lemma py_take_prefix (n : nat) (s : string) :
  exists rest, s = (py_take n s ++ rest)%string.
Proof.
  revert n. induction s as [|c s IH]; intros n; simpl.
  - exists "". reflexivity.
  - destruct (is_continuation c).
    + destruct (IH n) as [rest E]. exists rest. simpl. congruence.
    + destruct n as [|n].
      * exists (String c s). reflexivity.
      * destruct (IH n) as [rest E]. exists rest. simpl. congruence.
Qed.

Lemma py_take_all (n : nat) (s : string) :
  py_len s <= n -> py_take n s = s.
Proof.
  revert n. induction s as [|c s IH]; intros n H; simpl in *; [reflexivity|].
  destruct (is_continuation c).
  - rewrite IH by exact H. reflexivity.
  - destruct n as [|n]; [lia|]. rewrite IH by lia. reflexivity.
Qed.

Section TestDatabaseFacts.
Variable str_exn : exn -> string.
Variable getenv : string -> option string.

(** X17.  The response of [test_database] always has the same six keys,
    in the same order, and [backend] is always "Running".  The values of
    [database_url] and [database_name] tell whether the environment
    variables [DATABASE_URL] and [DATABASE_NAME] are set to a non-empty
    string and depend on nothing else: what is stored under these keys
    while the store is probed never reaches the caller. *)
Theorem test_database_keys_and_environment (imp : db_import) :
  map fst (test_database str_exn getenv imp)
  = ["backend"; "database"; "database_url"; "database_name";
     "connection_status"; "collections"]
  /\ (forall default,
        dict_get (test_database str_exn getenv imp) "backend" default
        = VStr "✅ Running")
  /\ (forall default,
        dict_get (test_database str_exn getenv imp) "database_url" default
        = VStr (if match getenv "DATABASE_URL" with
                   | Some v => PyStr.truthy v
                   | None => false
                   end
                then "✅ Set" else "❌ Not Set"))
  /\ (forall default,
        dict_get (test_database str_exn getenv imp) "database_name" default
        = VStr (if match getenv "DATABASE_NAME" with
                   | Some v => PyStr.truthy v
                   | None => false
                   end
                then "✅ Set" else "❌ Not Set")).
Proof.
  assert (Hflag : forall name,
             env_flag getenv name
             = VStr (if match getenv name with
                        | Some v => PyStr.truthy v
                        | None => false
                        end
                     then "✅ Set" else "❌ Not Set")).
  { intros name. unfold env_flag. destruct (getenv name) as [v|];
      [destruct (PyStr.truthy v)|]; reflexivity. }
  rewrite <- !Hflag.
  unfold test_database, probe, list_collections.
  destruct imp as [e|[db|]].
  - repeat split.
  - destruct (getattr_name db) as [e|attr].
    + repeat split.
    + destruct (list_collection_names db) as [e|names]; repeat split.
  - repeat split.
Qed.

(** X18.  [connection_status] is "Connected" exactly when the import
    succeeds, [db] is not [None] and reading its name does not raise; it is
    "Not Connected" otherwise.  [collections] holds at most ten names, the
    first ones the store lists, and is empty unless the listing succeeds. *)
Theorem test_database_connection_and_collections (imp : db_import) :
  (forall default,
      dict_get (test_database str_exn getenv imp) "connection_status" default
      = VStr (match imp with
              | DbImported (Some db) =>
                  match getattr_name db with
                  | inr _ => "Connected"
                  | inl _ => "Not Connected"
                  end
              | _ => "Not Connected"
              end))
  /\ (exists names,
        (forall default,
            dict_get (test_database str_exn getenv imp) "collections" default
            = VList (map VStr names))
        /\ List.length names <= 10
        /\ (names <> [] ->
            exists db attr listed,
              imp = DbImported (Some db)
              /\ getattr_name db = inr attr
              /\ list_collection_names db = inr listed
              /\ names = firstn 10 listed
              /\ forall default,
                   dict_get (test_database str_exn getenv imp)
                            "database" default
                   = VStr "✅ Connected & Working")).
Proof.
  unfold test_database, probe, list_collections.
  destruct imp as [e|[db|]].
  - split; [reflexivity|]. exists []. repeat split; simpl; try lia.
    intros H. congruence.
  - destruct (getattr_name db) as [e|attr] eqn:Ea.
    + split; [reflexivity|]. exists []. repeat split; simpl; try lia.
      intros H. congruence.
    + destruct (list_collection_names db) as [e|listed] eqn:El.
      * split; [reflexivity|]. exists []. repeat split; simpl; try lia.
        intros H. congruence.
      * split; [reflexivity|]. exists (firstn 10 listed).
        split; [reflexivity|]. split; [apply firstn_le_length|].
        intros _. exists db, attr, listed. repeat split; assumption.
  - split; [reflexivity|]. exists []. repeat split; simpl; try lia.
    intros H. congruence.
Qed.

(** X19.  The [database] field of the response is one of four texts: "Not
    Available" (when [db] is [None]), "Connected & Working", or one of the
    two error texts followed by the text of the exception cut to its first
    50 characters.  The text "Available" stored first is never
    returned. *)
Theorem test_database_status_text (imp : db_import) :
  exists text,
    (forall default,
        dict_get (test_database str_exn getenv imp) "database" default
        = VStr text)
    /\ text <> "✅ Available"
    /\ (text = "❌ Not Available"
        \/ text = "✅ Connected & Working"
        \/ exists e cut,
             (text = ("⚠️  Connected but Error: " ++ cut)%string
              \/ text = ("❌ Error: " ++ cut)%string)
             /\ cut = py_take 50 (str_exn e)
             /\ py_len cut <= 50
             /\ (exists rest, str_exn e = (cut ++ rest)%string)
             /\ (py_len (str_exn e) <= 50 -> cut = str_exn e)).
Proof.
  assert (Hcut : forall e,
             py_take 50 (str_exn e) = py_take 50 (str_exn e)
             /\ py_len (py_take 50 (str_exn e)) <= 50
             /\ (exists rest,
                    str_exn e = (py_take 50 (str_exn e) ++ rest)%string)
             /\ (py_len (str_exn e) <= 50 ->
                 py_take 50 (str_exn e) = str_exn e)).
  { intros e. split; [reflexivity|]. split; [apply py_len_take|].
    split; [apply py_take_prefix|apply py_take_all]. }
  unfold test_database, probe, list_collections.
  destruct imp as [e|[db|]].
  - eexists. split; [reflexivity|]. split; [discriminate|].
    right. right. exists e. eexists. split; [right; reflexivity|apply Hcut].
  - destruct (getattr_name db) as [e|attr].
    + eexists. split; [reflexivity|]. split; [discriminate|].
      right. right. exists e. eexists.
      split; [right; reflexivity|apply Hcut].
    + destruct (list_collection_names db) as [e|listed].
      * eexists. split; [reflexivity|]. split; [discriminate|].
        right. right. exists e. eexists.
        split; [left; reflexivity|apply Hcut].
      * eexists. split; [reflexivity|]. split; [discriminate|].
        right. left. reflexivity.
  - eexists. split; [reflexivity|]. split; [discriminate|].
    left. reflexivity.
Qed.
End TestDatabaseFacts.

(** ** Finding a product by its own fields *)

Lemma occurs_in_refl (s : string) : PyStr.occurs_in s s.
Proof.
  exists "", "". simpl. induction s as [|c s IH]; simpl; congruence.
Qed.

(** X20.  A product of the catalogue is found by its own fields: the query
    for its gender, its category and its full name returns it, and so does
    the query with any of its tags as the search text (the fields used
    being non-empty), whatever the sort mode. *)
Theorem product_found_by_own_fields (lower : string -> string)
    (items : list Product) (p : Product) (s : option string)
    (Hin : In p items) (Hg : gender p <> "") (Hc : category p <> "")
    (Hn : name p <> "") :
  In p (list_products_body lower items
          (Some (gender p)) (Some (category p)) (Some (name p)) s)
  /\ (forall t,
        In t (tags p) -> t <> "" ->
        In p (list_products_body lower items
                (Some (gender p)) (Some (category p)) (Some t) s)).
Proof.
  apply PyStrFacts.truthy_iff in Hg, Hc, Hn.
  assert (Tg : test_of (Some (gender p)) (gender_test lower) p = true).
  { simpl. rewrite Hg. unfold gender_test. rewrite String.eqb_refl.
    reflexivity. }
  assert (Tc : test_of (Some (category p)) (category_test lower) p = true).
  { simpl. rewrite Hc. unfold category_test. apply String.eqb_refl. }
  split.
  - rewrite list_products_body_filters.
    apply (Permutation_in _ (Permutation_sym (sort_pass_perm s _))).
    rewrite !filter_In. repeat split; try assumption.
    simpl. rewrite Hn. apply search_test_iff. left. apply occurs_in_refl.
  - intros t Ht Hne. apply PyStrFacts.truthy_iff in Hne.
    rewrite list_products_body_filters.
    apply (Permutation_in _ (Permutation_sym (sort_pass_perm s _))).
    rewrite !filter_In. repeat split; try assumption.
    simpl. rewrite Hne. apply search_test_iff. right.
    exists t. split; [exact Ht|apply occurs_in_refl].
Qed.

Lemma product_found_by_own_fields_witness :
  In dior_heel_01 SAMPLE_PRODUCTS
  /\ gender dior_heel_01 <> "" /\ category dior_heel_01 <> ""
  /\ name dior_heel_01 <> ""
  /\ In dior_heel_01
       (list_products_body PyStr.ascii_lower SAMPLE_PRODUCTS
          (Some (gender dior_heel_01)) (Some (category dior_heel_01))
          (Some (name dior_heel_01)) (Some "price_asc")).
Proof.
  assert (H1 : In dior_heel_01 SAMPLE_PRODUCTS) by (simpl; tauto).
  assert (H2 : gender dior_heel_01 <> "") by discriminate.
  assert (H3 : category dior_heel_01 <> "") by discriminate.
  assert (H4 : name dior_heel_01 <> "") by discriminate.
  split; [exact H1|]. split; [exact H2|]. split; [exact H3|].
  split; [exact H4|].
  exact (proj1 (product_found_by_own_fields PyStr.ascii_lower
                  SAMPLE_PRODUCTS dior_heel_01 (Some "price_asc")
                  H1 H2 H3 H4)).
Defined.
